(** * ContractorPro / FormTool.py: the document store

    A shallow embedding of the CSV encoder ([save_document_csv]), the CSV
    decoder ([load_quote_from_csv]) and the totals computation
    ([compute_totals]) of [src/FormTool.py], with the properties the
    specification states about them, followed by the conversations that edit
    the header of a quote and reorder its sections.

    Modelling conventions.
    - A Python [float] is a binary64 number: Rocq's primitive [float].
    - A Python [str] is a [string]; a character stands for a code point up to
      U+00FF.
    - A [dict] is a [gmap] with [string] keys.
    - A CSV file is a list of rows, a row a list of text cells.
      [save_document_csv] stores the rows that [csv.writer] is given;
      [load_quote_from_csv] starts from the rows that [csv.reader] has
      returned.  The two differ for a file that is written and then read: the
      read turns a carriage return in a cell into a line feed, and raises at a
      cell of more than 131072 characters or at bytes that are not UTF-8.
      [read_rows] is that step, and [load_quote_from_csv_on_disk] the decoder
      with it.
    - The file system maps a path to the rows of the file stored there.
      Opening a file for writing succeeds: its folder exists, and the system
      accepts the path.
    - An exception is a [Raise] result; [try]/[except] is [try_except]. *)

From Stdlib Require Import ZArith Floats String Ascii List Lia.
From stdpp Require Import gmap strings list.

Local Open Scope string_scope.
Local Open Scope list_scope.
Local Open Scope Z_scope.

(** ** Exceptions *)

Inductive exn := IndexError | KeyError | ValueError | TypeError.

Inductive result (A : Type) := Ok (a : A) | Raise (e : exn).
Arguments Ok {A} a.
Arguments Raise {A} e.

#[global] Instance result_ret : MRet result := fun _ a => Ok a.
#[global] Instance result_bind : MBind result := fun _ _ f m =>
  match m with
  | Ok a => f a
  | Raise e => Raise e
  end.

Definition exn_eqb (a b : exn) : bool :=
  match a, b with
  | IndexError, IndexError | KeyError, KeyError
  | ValueError, ValueError | TypeError, TypeError => true
  | _, _ => false
  end.

(** [try: body / except (caught): handler] *)
Definition try_except {A} (body : result A) (caught : list exn) (handler : result A) : result A :=
  match body with
  | Ok a => Ok a
  | Raise e => if existsb (exn_eqb e) caught then handler else Raise e
  end.

(** [l[i]], with Python's negative indices *)
Definition getitem {A} (l : list A) (i : Z) : result A :=
  let j := if i <? 0 then i + Z.of_nat (length l) else i in
  if j <? 0 then Raise IndexError
  else match l !! Z.to_nat j with
       | Some x => Ok x
       | None => Raise IndexError
       end.

(** [d[k]] and [d.get(k, dflt)] *)
Definition dict_getitem {V} (d : gmap string V) (k : string) : result V :=
  match d !! k with
  | Some v => Ok v
  | None => Raise KeyError
  end.

Definition dict_get {V} (d : gmap string V) (k : string) (dflt : V) : V :=
  default dflt (d !! k).

(** ** Strings *)

(** Whitespace as [str.strip] sees it, among the characters up to U+00FF: tab
    to carriage return, the four separators, space, NEL and the no-break
    space. *)
Definition is_space (c : ascii) : bool :=
  let n := Z.of_N (N_of_ascii c) in
  ((9 <=? n) && (n <=? 13)) || ((28 <=? n) && (n <=? 32)) || (n =? 133) || (n =? 160).

Fixpoint lstrip (s : string) : string :=
  match s with
  | String c s' => if is_space c then lstrip s' else s
  | EmptyString => EmptyString
  end.

Fixpoint rstrip (s : string) : string :=
  match s with
  | EmptyString => EmptyString
  | String c s' =>
      match rstrip s' with
      | EmptyString => if is_space c then EmptyString else String c EmptyString
      | t => String c t
      end
  end.

Definition strip (s : string) : string := rstrip (lstrip s).

(** [s.startswith(p)] *)
Fixpoint startswith (s p : string) {struct p} : bool :=
  match p with
  | EmptyString => true
  | String a p' =>
      match s with
      | String b s' => Ascii.eqb a b && startswith s' p'
      | EmptyString => false
      end
  end.

Fixpoint endswith_sep (s : string) : bool :=
  match s with
  | EmptyString => false
  | String c EmptyString => Ascii.eqb c "/"
  | String _ s' => endswith_sep s'
  end.

(** [os.path.join(a, b)] of posixpath *)
Definition os_path_join (a b : string) : string :=
  if startswith b "/" then b
  else if (a =? "")%string || endswith_sep a then a +:+ b
  else a +:+ "/" +:+ b.

(** ** [float(s)]: the binary64 nearest to a decimal literal *)

(** Whitespace as [float] sees it around a number: tab to carriage return and
    space, and NEL and the no-break space, which are read as spaces.  The four
    separators U+001C to U+001F, which [str.strip] removes, are not among
    them. *)
Definition is_number_space (c : ascii) : bool :=
  let n := Z.of_N (N_of_ascii c) in
  ((9 <=? n) && (n <=? 13)) || (n =? 32) || (n =? 133) || (n =? 160).

Fixpoint lstrip_number (s : string) : string :=
  match s with
  | String c s' => if is_number_space c then lstrip_number s' else s
  | EmptyString => EmptyString
  end.

Fixpoint rstrip_number (s : string) : string :=
  match s with
  | EmptyString => EmptyString
  | String c s' =>
      match rstrip_number s' with
      | EmptyString => if is_number_space c then EmptyString else String c EmptyString
      | t => String c t
      end
  end.

Definition strip_number (s : string) : string := rstrip_number (lstrip_number s).

Definition is_digit (c : ascii) : bool :=
  let n := Z.of_N (N_of_ascii c) in (48 <=? n) && (n <=? 57).

Definition digit_val (c : ascii) : Z := Z.of_N (N_of_ascii c) - 48.

(** Underscores may only stand between two digits; they are dropped. *)
Fixpoint drop_underscores (prev : ascii) (s : string) : option string :=
  match s with
  | EmptyString => if Ascii.eqb prev "_" then None else Some EmptyString
  | String c s' =>
      if Ascii.eqb c "_" then
        if is_digit prev then drop_underscores c s' else None
      else if Ascii.eqb prev "_" && negb (is_digit c) then None
      else String c <$> drop_underscores c s'
  end.

Definition read_sign (s : string) : bool * string :=
  match s with
  | String "-" s' => (true, s')
  | String "+" s' => (false, s')
  | _ => (false, s)
  end.

(** a maximal run of digits: its value on top of [acc], its length on top of
    [n], and what follows it *)
Fixpoint read_digits (s : string) (acc n : Z) : Z * Z * string :=
  match s with
  | String c s' =>
      if is_digit c then read_digits s' (10 * acc + digit_val c) (n + 1) else (acc, n, s)
  | EmptyString => (acc, n, s)
  end.

(** an exponent part is read only when a digit follows the [e] and its sign *)
Definition read_exponent (s : string) : Z * string :=
  match s with
  | String c s' =>
      if Ascii.eqb c "e" || Ascii.eqb c "E" then
        let '(eneg, s1) := read_sign s' in
        let '(ev, ne, s2) := read_digits s1 0 0 in
        if ne =? 0 then (0, s) else (if eneg then - ev else ev, s2)
      else (0, s)
  | EmptyString => (0, s)
  end.

(** sign, decimal mantissa and decimal exponent of a whole literal *)
Definition read_decimal (s : string) : option (bool * Z * Z) :=
  let '(neg, s1) := read_sign s in
  let '(ip, ni, s2) := read_digits s1 0 0 in
  let '(m, nf, s3) :=
    match s2 with
    | String "." s2' => read_digits s2' ip 0
    | _ => (ip, 0, s2)
    end in
  if ni + nf =? 0 then None
  else
    let '(e, s4) := read_exponent s3 in
    match s4 with
    | EmptyString => Some (neg, m, e - nf)
    | _ => None
    end.

(** [n / d] rounded to the nearest binary64, ties to even, for [0 < n] and
    [0 < d]: the quotient is taken with more than 64 bits and one more bit
    that records a remainder. *)
Definition round_ratio (neg : bool) (n d : Z) : spec_float :=
  let k := Z.max 0 (66 + Z.log2 d - Z.log2 n) in
  let q := (n * 2 ^ k) / d in
  let sticky := if (n * 2 ^ k) mod d =? 0 then 0 else 1 in
  let m := 2 * q + sticky in
  binary_normalize prec emax (if neg then - m else m) (- k - 1) false.

(** [n / d * 10^q] as a fraction *)
Definition scale10 (n d q : Z) : Z * Z :=
  if 0 <=? q then (n * 10 ^ q, d) else (n, d * 10 ^ (- q)).

(** the binary64 nearest to [m * 10^e], for [0 <= m] *)
Definition decimal_to_float (neg : bool) (m e : Z) : spec_float :=
  if m =? 0 then S754_zero neg
  else
    let mag := (Z.log2 m * 30103) / 100000 + e in
    if 320 <? mag then S754_infinity neg
    else if mag <? -340 then S754_zero neg
    else let '(n, d) := scale10 m 1 e in round_ratio neg n d.

Definition to_lower (c : ascii) : ascii :=
  let n := N_of_ascii c in
  if ((65 <=? n) && (n <=? 90))%N then ascii_of_N (n + 32) else c.

Fixpoint lower (s : string) : string :=
  match s with
  | EmptyString => EmptyString
  | String c s' => String (to_lower c) (lower s')
  end.

Definition read_inf_or_nan (s : string) : option spec_float :=
  let '(neg, s1) := read_sign s in
  let w := lower s1 in
  if (w =? "inf")%string || (w =? "infinity")%string then Some (S754_infinity neg)
  else if (w =? "nan")%string then Some S754_nan
  else None.

(** [float(s)]: surrounding whitespace is ignored; what is not a number
    raises [ValueError]. *)
Definition py_float (s : string) : result float :=
  match drop_underscores "000" (strip_number s) with
  | None => Raise ValueError
  | Some t =>
      match read_inf_or_nan t with
      | Some x => Ok (SF2Prim x)
      | None =>
          match read_decimal t with
          | Some (neg, m, e) => Ok (SF2Prim (decimal_to_float neg m e))
          | None => Raise ValueError
          end
      end
  end.

(** ** [str(x)] of a float: the shortest decimal that reads back as [x] *)

Definition le_pow10 (n d p : Z) : bool :=
  let '(n', d') := scale10 n d (- p) in d' <=? n'.

Fixpoint ilog10_from (fuel : nat) (n d p : Z) : Z :=
  match fuel with
  | O => p
  | S f => if le_pow10 n d (p + 1) then ilog10_from f n d (p + 1) else p
  end.

(** the largest [p] with [10^p <= n / d] *)
Definition ilog10 (n d : Z) : Z :=
  ilog10_from 8 n d (((Z.log2 n - Z.log2 d) * 30103) / 100000 - 2).

Definition SF_eqb (x y : spec_float) : bool :=
  match x, y with
  | S754_finite sx mx ex, S754_finite sy my ey =>
      Bool.eqb sx sy && (mx =? my)%positive && (ex =? ey)
  | _, _ => false
  end.

Definition reads_back (x : spec_float) (c q : Z) : bool :=
  SF_eqb (decimal_to_float false c q) x.

(** With [ndig] digits there are two candidates around [n / d]; the first
    length at which one of them reads back as [x] is taken, and the nearer of
    the two when both do.  Seventeen digits always read back. *)
Fixpoint shortest_digits (fuel : nat) (ndig : Z) (x : spec_float) (n d p : Z) : Z * Z :=
  let q := p - (ndig - 1) in
  let '(n', d') := scale10 n d (- q) in
  let lo := n' / d' in
  let r := n' mod d' in
  let nearest :=
    if 2 * r <? d' then lo
    else if d' <? 2 * r then lo + 1
    else if Z.even lo then lo else lo + 1 in
  match fuel with
  | O => (nearest, q)
  | S f =>
      match reads_back x lo q, reads_back x (lo + 1) q with
      | true, true => (nearest, q)
      | true, false => (lo, q)
      | false, true => (lo + 1, q)
      | false, false => shortest_digits f (ndig + 1) x n d p
      end
  end.

Fixpoint strip_zeros (fuel : nat) (c q : Z) : Z * Z :=
  match fuel with
  | O => (c, q)
  | S f =>
      if (c mod 10 =? 0) && negb (c =? 0) then strip_zeros f (c / 10) (q + 1) else (c, q)
  end.

Definition digit_char (k : Z) : ascii := ascii_of_N (Z.to_N (48 + k)).

Fixpoint digits_from (fuel : nat) (c : Z) (acc : string) : string :=
  match fuel with
  | O => acc
  | S f =>
      let acc' := String (digit_char (c mod 10)) acc in
      if c <? 10 then acc' else digits_from f (c / 10) acc'
  end.

(** the decimal digits of a natural number below [10^20] *)
Definition digits (c : Z) : string := digits_from 20 c "".

Fixpoint zeros (n : nat) : string :=
  match n with
  | O => ""
  | S k => String "0" (zeros k)
  end.

Definition pad2 (c : Z) : string :=
  if c <? 10 then String "0" (digits c) else digits c.

(** The digits [ds] with the decimal point after the first [decpt] of them:
    plain notation, or exponent notation for the very small and very large. *)
Definition format_repr (neg : bool) (ds : string) (decpt : Z) : string :=
  let n := Z.of_nat (String.length ds) in
  let body :=
    if (decpt <=? -4) || (16 <? decpt) then
      let e := decpt - 1 in
      substring 0 1 ds
        +:+ (if n =? 1 then "" else "." +:+ substring 1 (Z.to_nat (n - 1)) ds)
        +:+ "e" +:+ (if e <? 0 then "-" else "+") +:+ pad2 (Z.abs e)
    else if decpt <=? 0 then "0." +:+ zeros (Z.to_nat (- decpt)) +:+ ds
    else if n <=? decpt then ds +:+ zeros (Z.to_nat (decpt - n)) +:+ ".0"
    else substring 0 (Z.to_nat decpt) ds +:+ "."
           +:+ substring (Z.to_nat decpt) (Z.to_nat (n - decpt)) ds in
  (if neg then "-" else "") +:+ body.

(** [str(x)], which is what [csv.writer] writes for a float cell *)
Definition py_str (x : float) : string :=
  match Prim2SF x with
  | S754_nan => "nan"
  | S754_infinity s => if s then "-inf" else "inf"
  | S754_zero s => if s then "-0.0" else "0.0"
  | S754_finite s m e =>
      let '(n, d) := if 0 <=? e then (Zpos m * 2 ^ e, 1) else (Zpos m, 2 ^ (- e)) in
      let '(c, q) := shortest_digits 16 1 (S754_finite false m e) n d (ilog10 n d) in
      let '(c, q) := strip_zeros 20 c q in
      let ds := digits c in
      format_repr s ds (Z.of_nat (String.length ds) + q)
  end.

(** ** Dates: [datetime.date], [strftime] and [strptime] with [%m-%d-%Y] *)

Record date := mkdate { year : Z; month : Z; day : Z }.

Definition is_leap (y : Z) : bool :=
  (y mod 4 =? 0) && (negb (y mod 100 =? 0) || (y mod 400 =? 0)).

Definition days_in_month (y m : Z) : Z :=
  if m =? 2 then (if is_leap y then 29 else 28)
  else if (m =? 4) || (m =? 6) || (m =? 9) || (m =? 11) then 30
  else 31.

(** the dates [datetime.date(y, m, d)] accepts *)
Definition valid_date (d : date) : bool :=
  (1 <=? year d) && (year d <=? 9999) && (1 <=? month d) && (month d <=? 12)
  && (1 <=? day d) && (day d <=? days_in_month (year d) (month d)).

(** [strftime]: month and day in two digits; the year is written as the C
    library writes it, without padding. *)
Definition strftime_mdY (d : date) : string :=
  pad2 (month d) +:+ "-" +:+ pad2 (day d) +:+ "-" +:+ digits (year d).

(** every string of one character of [a] followed by one of [b] *)
Definition pairs (a b : string) : list string :=
  c1 ← list_ascii_of_string a; c2 ← list_ascii_of_string b; [String c1 (String c2 "")].

Definition singles (a : string) : list string :=
  (fun c => String c "") <$> list_ascii_of_string a.

(** [%m] is [1[0-2]|0[1-9]|[1-9]], [%d] is
    [3[01]|[12]\d|0[1-9]|[1-9]| [1-9]]: the alternatives in their order *)
Definition month_alts : list string :=
  pairs "1" "012" ++ pairs "0" "123456789" ++ singles "123456789".

Definition day_alts : list string :=
  pairs "3" "01" ++ pairs "12" "0123456789" ++ pairs "0" "123456789"
    ++ singles "123456789" ++ pairs " " "123456789".

(** [int(s)] of a field the pattern matched: digits, after an optional blank *)
Definition field_val (s : string) : Z := fst (fst (read_digits (strip s) 0 0)).

(** [s[n:]] *)
Fixpoint drop_chars (n : nat) (s : string) : string :=
  match n, s with
  | O, _ => s
  | S n', String _ s' => drop_chars n' s'
  | S _, EmptyString => EmptyString
  end.

(** A field and the ["-"] after it.  The dash delimits the field, so no later
    alternative can match once one has. *)
Fixpoint match_field (alts : list string) (s : string) : option (Z * string) :=
  match alts with
  | [] => None
  | a :: alts' =>
      if startswith s (a +:+ "-")
      then Some (field_val a, drop_chars (S (String.length a)) s)
      else match_field alts' s
  end.

(** [%Y] is four digits *)
Definition match_year (s : string) : option (Z * string) :=
  match s with
  | String a (String b (String c (String d rest))) =>
      if is_digit a && is_digit b && is_digit c && is_digit d
      then Some (1000 * digit_val a + 100 * digit_val b + 10 * digit_val c + digit_val d, rest)
      else None
  | _ => None
  end.

(** [datetime.datetime.strptime(s, "%m-%d-%Y").date()]: the pattern has to
    match at the start, nothing may remain after it, and the date has to
    exist. *)
Definition strptime_mdY (s : string) : result date :=
  match match_field month_alts s with
  | None => Raise ValueError
  | Some (m, s1) =>
      match match_field day_alts s1 with
      | None => Raise ValueError
      | Some (d, s2) =>
          match match_year s2 with
          | Some (y, EmptyString) =>
              if valid_date (mkdate y m d) then Ok (mkdate y m d) else Raise ValueError
          | _ => Raise ValueError
          end
      end
  end.

(** ** Date helpers (source lines 52-62) *)

Definition format_date (date_obj : date) : string := strftime_mdY date_obj.

Definition parse_mmddyyyy (date_str : string) : result date := strptime_mdY date_str.

(** ** Data models (source lines 69-113) *)

Module EstimateLine.
Record t := mk {
  section : string;
  description : string;
  worker_type : string;
  hours : float;
  rate : float;
  detail : string
}.
Definition total (self : t) : float := (hours self * rate self)%float.
End EstimateLine.

Module OwnerAllowance.
Record t := mk {
  description : string;
  quantity : float;
  unit_cost : float
}.
Definition total (self : t) : float := (quantity self * unit_cost self)%float.
End OwnerAllowance.

(** ** Totals (source lines 601-611) *)

(** [sum(xs)] of floats: the items are added from left to right, starting
    from zero.  (Of no items the sum is the integer [0], which equals [0.0]
    and is written [0]; here it is [0.0].) *)
Definition py_sum (xs : list float) : float := fold_left PrimFloat.add xs 0%float.

Definition compute_totals (lines : list EstimateLine.t) (receipts_total : float)
  : gmap string float :=
  let contractor_subtotal := py_sum (EstimateLine.total <$> lines) in
  let grand_total := (contractor_subtotal + receipts_total)%float in
  <["grand_total" := grand_total]>
    (<["receipts_total" := receipts_total]>
      (<["subtotal" := contractor_subtotal]> ∅)).

(** ** CSV export (source lines 618-681) *)

Abbreviation csv_row := (list string) (only parsing).
Abbreviation filesystem := (gmap string (list (list string))) (only parsing).

(** what the code hands to [csv.writer]: text, or a float that the writer
    turns into text with [str] *)
Inductive field := FStr (s : string) | FNum (x : float).

Definition csv_cell (f : field) : string :=
  match f with
  | FStr s => s
  | FNum x => py_str x
  end.

Definition writerow (w : list csv_row) (fields : list field) : list csv_row :=
  w ++ [csv_cell <$> fields].

Definition allowances_marker : string := "Owner Allowances (client purchases directly)".

(** The body of the [with open(...)] block: the rows written, and how the
    block ended.  A missing total raises [KeyError] after the rows before it
    were written. *)
Definition write_document (job_id doc_type project_name project_address client_name : string)
    (lines : list EstimateLine.t) (totals : gmap string float)
    (allowances : list OwnerAllowance.t) (date_str : string) : list csv_row * result unit :=
  let w := [] in
  let w := writerow w [FStr "DocType"; FStr doc_type] in
  let w := writerow w [FStr "JobID"; FStr job_id] in
  let w := writerow w [FStr "Project"; FStr project_name] in
  let w := writerow w [FStr "Client"; FStr client_name] in
  let w := writerow w [FStr "Address"; FStr project_address] in
  let w := writerow w [FStr "Date"; FStr date_str] in
  let w := writerow w [FStr "ReceiptsTotal"; FNum (dict_get totals "receipts_total" 0%float)] in
  let w := writerow w [] in
  let w := writerow w [FStr "Section"; FStr "Description"; FStr "FullDescription";
                       FStr "WorkerType"; FStr "Hours/Qty"; FStr "Rate/UnitPrice";
                       FStr "LineTotal"] in
  let w :=
    fold_left
      (fun w line =>
         writerow w [FStr (EstimateLine.section line); FStr (EstimateLine.description line);
                     FStr (EstimateLine.detail line); FStr (EstimateLine.worker_type line);
                     FNum (EstimateLine.hours line); FNum (EstimateLine.rate line);
                     FNum (EstimateLine.total line)])
      lines w in
  let w := writerow w [] in
  match dict_getitem totals "subtotal" with
  | Raise e => (w, Raise e)
  | Ok subtotal =>
      let w := writerow w [FStr "Subtotal"; FStr ""; FStr ""; FStr ""; FStr ""; FStr "";
                           FNum subtotal] in
      match dict_getitem totals "grand_total" with
      | Raise e => (w, Raise e)
      | Ok grand_total =>
          let w := writerow w [FStr "GrandTotal"; FStr ""; FStr ""; FStr ""; FStr ""; FStr "";
                               FNum grand_total] in
          let w :=
            match allowances with
            | [] => w
            | _ :: _ =>
                let w := writerow w [] in
                let w := writerow w [FStr allowances_marker] in
                let w := writerow w [FStr "Description"; FStr "Quantity"; FStr "EstUnitCost";
                                     FStr "EstTotal"] in
                let '(w, allowance_total) :=
                  fold_left
                    (fun '(w, allowance_total) a =>
                       (writerow w [FStr (OwnerAllowance.description a);
                                    FNum (OwnerAllowance.quantity a);
                                    FNum (OwnerAllowance.unit_cost a);
                                    FNum (OwnerAllowance.total a)],
                        (allowance_total + OwnerAllowance.total a)%float))
                    allowances (w, 0%float) in
                writerow w [FStr "OwnerAllowancesTotal"; FStr ""; FStr ""; FStr "";
                            FNum allowance_total]
            end in
          (w, Ok tt)
      end
  end.

(** The file at [path] is created or replaced by the rows written; the path is
    returned when the block ended normally. *)
Definition save_document_csv (fs : filesystem)
    (job_dir job_id doc_type project_name project_address client_name : string)
    (lines : list EstimateLine.t) (totals : gmap string float)
    (allowances : list OwnerAllowance.t) (doc_date : date) : filesystem * result string :=
  let date_str := format_date doc_date in
  let filename := job_id +:+ "_" +:+ doc_type +:+ "_" +:+ date_str +:+ ".csv" in
  let path := os_path_join job_dir filename in
  let '(w, r) := write_document job_id doc_type project_name project_address client_name
                   lines totals allowances date_str in
  (<[path := w]> fs, _ ← r; Ok path).

(** ** CSV import (source lines 684-827) *)

(** the values of the [meta] dictionary *)
Inductive value := VStr (s : string) | VDate (d : date).

(** what the decoder prints *)
Inductive message := QuoteFileNotFound (path : string).

Record state := mkstate {
  st_meta : gmap string value;
  st_lines : list EstimateLine.t;
  st_totals : gmap string float;
  st_allowances : list OwnerAllowance.t
}.

Definition set_meta (st : state) (k : string) (v : value) : state :=
  mkstate (<[k := v]> (st_meta st)) (st_lines st) (st_totals st) (st_allowances st).

Definition set_total (st : state) (k : string) (x : float) : state :=
  mkstate (st_meta st) (st_lines st) (<[k := x]> (st_totals st)) (st_allowances st).

Definition set_lines (st : state) (ls : list EstimateLine.t) : state :=
  mkstate (st_meta st) ls (st_totals st) (st_allowances st).

Definition set_allowances (st : state) (als : list OwnerAllowance.t) : state :=
  mkstate (st_meta st) (st_lines st) (st_totals st) als.

Definition len (r : csv_row) : Z := Z.of_nat (length r).

(** [r[k].strip() if len(r) > k else ""] *)
Definition text_at (r : csv_row) (k : Z) : result string :=
  if k <? len r then c ← getitem r k; Ok (strip c) else Ok "".

(** [try: x = float(r[k]) if len(r) > k and r[k].strip() != "" else 0.0]
    [except ValueError: x = 0.0] *)
Definition number_at (r : csv_row) (k : Z) : result float :=
  try_except
    (filled ← (if k <? len r then c ← getitem r k; Ok (negb (strip c =? "")%string)
               else Ok false);
     if filled : bool then c ← getitem r k; py_float c else Ok 0%float)
    [ValueError] (Ok 0%float).

(** the rows at which the line-item table stops *)
Definition table_end (key : string) : bool :=
  existsb (String.eqb key) ["Subtotal"; "GrandTotal"; allowances_marker].

(** [all(not cell.strip() for cell in r)] *)
Definition all_blank (r : csv_row) : bool :=
  forallb (fun cell => (strip cell =? "")%string) r.

(** lines 767-789: one row of the table *)
Definition line_item (r : csv_row) : result EstimateLine.t :=
  section ← text_at r 0;
  desc ← text_at r 1;
  detail ← text_at r 2;
  worker ← text_at r 3;
  hours ← number_at r 4;
  rate ← number_at r 5;
  Ok (EstimateLine.mk section desc worker hours rate detail).

(** Lines 754-790, the inner loop over the table, run on the rows from index
    [i] on: the line items after the loop, and by how much [i] advanced. *)
Fixpoint read_line_items (rows : list csv_row) (lines : list EstimateLine.t)
  : result (list EstimateLine.t * nat) :=
  match rows with
  | [] => Ok (lines, 0%nat)
  | r :: rest =>
      stop ← (match r with
              | [] => Ok true
              | _ :: _ => c ← getitem r 0; Ok (table_end (strip c))
              end);
      if stop : bool then Ok (lines, 0%nat)
      else if all_blank r then
        '(lines, n) ← read_line_items rest lines; Ok (lines, S n)
      else
        line ← line_item r;
        '(lines, n) ← read_line_items rest (lines ++ [line]); Ok (lines, S n)
  end.

(** lines 813-822: one row of the allowances block *)
Definition allowance_item (r : csv_row) : result OwnerAllowance.t :=
  desc ← text_at r 0;
  qty ← number_at r 1;
  unit ← number_at r 2;
  Ok (OwnerAllowance.mk desc qty unit).

(** Lines 805-823, the inner loop over the allowances. *)
Fixpoint read_allowances (rows : list csv_row) (allowances : list OwnerAllowance.t)
  : result (list OwnerAllowance.t * nat) :=
  match rows with
  | [] => Ok (allowances, 0%nat)
  | r :: rest =>
      match r with
      | [] => '(allowances, n) ← read_allowances rest allowances; Ok (allowances, S n)
      | _ :: _ =>
          c ← getitem r 0;
          let first := strip c in
          if (first =? "OwnerAllowancesTotal")%string then Ok (allowances, 0%nat)
          else
            a ← allowance_item r;
            '(allowances, n) ← read_allowances rest (allowances ++ [a]); Ok (allowances, S n)
      end
  end.

(** [try: totals[k] = float(cell)] [except (ValueError, TypeError): totals[k] = 0.0] *)
Definition total_of (cell : result string) : result float :=
  try_except (c ← cell; py_float c) [ValueError; TypeError] (Ok 0%float).

(** Lines 724-825, one turn of the outer loop at a row: the state after it, and
    how many of the rows after this one were consumed as well ([rest] are the
    rows after it). *)
Definition outer_row (row : csv_row) (rest : list csv_row) (st : state)
  : result (state * nat) :=
  match row with
  | [] => Ok (st, 0%nat)
  | _ :: _ =>
      c ← getitem row 0;
      let key := strip c in
      if (key =? "DocType")%string && (1 <? len row) then
        v ← getitem row 1; Ok (set_meta st "doc_type" (VStr (strip v)), 0%nat)
      else if (key =? "JobID")%string && (1 <? len row) then
        v ← getitem row 1; Ok (set_meta st "job_id" (VStr (strip v)), 0%nat)
      else if (key =? "Project")%string && (1 <? len row) then
        v ← getitem row 1; Ok (set_meta st "project_name" (VStr (strip v)), 0%nat)
      else if (key =? "Client")%string && (1 <? len row) then
        v ← getitem row 1; Ok (set_meta st "client_name" (VStr (strip v)), 0%nat)
      else if (key =? "Address")%string && (1 <? len row) then
        v ← getitem row 1; Ok (set_meta st "project_address" (VStr (strip v)), 0%nat)
      else if (key =? "Date")%string && (1 <? len row) then
        st ← try_except
               (v ← getitem row 1; d ← parse_mmddyyyy (strip v);
                Ok (set_meta st "doc_date" (VDate d)))
               [ValueError] (Ok st);
        Ok (st, 0%nat)
      else if (key =? "ReceiptsTotal")%string && (1 <? len row) then
        x ← total_of (getitem row 1); Ok (set_total st "receipts_total" x, 0%nat)
      else if (key =? "Section")%string then
        '(lines, n) ← read_line_items rest (st_lines st); Ok (set_lines st lines, n)
      else if (key =? "Subtotal")%string then
        x ← total_of (getitem row (-1)); Ok (set_total st "subtotal" x, 0%nat)
      else if (key =? "GrandTotal")%string then
        x ← total_of (getitem row (-1)); Ok (set_total st "grand_total" x, 0%nat)
      else if (key =? allowances_marker)%string then
        '(allowances, n) ← read_allowances (tail rest) (st_allowances st);
        Ok (set_allowances st allowances, S (S n))
      else Ok (st, 0%nat)
  end.

(** Lines 722-825, the outer loop run on the rows from index [i] on.  [skip]
    counts the rows that an inner loop has consumed already: the index moved
    past them. *)
Fixpoint scan_rows (rows : list csv_row) (skip : nat) (st : state) : result state :=
  match rows with
  | [] => Ok st
  | row :: rest =>
      match skip with
      | S k => scan_rows rest k st
      | O => '(st, n) ← outer_row row rest st; scan_rows rest n st
      end
  end.

Definition initial_state (today : date) : state :=
  mkstate
    (<["doc_date" := VDate today]>
      (<["project_address" := VStr ""]>
        (<["client_name" := VStr ""]>
          (<["project_name" := VStr ""]>
            (<["job_id" := VStr ""]>
              (<["doc_type" := VStr "quote"]> ∅))))))
    []
    (<["grand_total" := 0%float]>
      (<["receipts_total" := 0%float]>
        (<["subtotal" := 0%float]> ∅)))
    [].

(** What was printed, and the tuple returned (or the exception raised).
    [today] is what [datetime.date.today()] returns during the call.  [fs]
    gives, for the path of an existing file, the rows that line 704 has
    obtained from the reader; the read itself is [read_rows] below. *)
Definition load_quote_from_csv (today : date) (fs : filesystem) (path : string)
  : list message
    * result (gmap string value * list EstimateLine.t * gmap string float
              * list OwnerAllowance.t) :=
  match fs !! path with
  | None => ([QuoteFileNotFound path], Ok (∅, [], ∅, []))
  | Some rows =>
      ([], st ← scan_rows rows 0 (initial_state today);
           Ok (st_meta st, st_lines st, st_totals st, st_allowances st))
  end.

(** ** The file behind the rows (source lines 634 and 702-704)

    [save_document_csv] opens the file with [newline=""], so the text holds
    the records as [csv.writer] writes them.  [load_quote_from_csv] opens it
    without [newline], so the text layer hands every CR LF and every lone CR
    to [csv.reader] as LF, also inside a quoted cell.  The reader raises
    [csv.Error] at a cell of more than 131072 characters, and the text layer
    raises [UnicodeDecodeError] at bytes that are not UTF-8.  Neither is
    caught in lines 702-704.

    [load_quote_from_csv] above is the function on a file system that gives,
    for a path, the rows that line 704 has obtained.
    [load_quote_from_csv_on_disk] is the function on the files themselves. *)

Definition CR : ascii := "013".
Definition LF : ascii := "010".

(** the text of a cell as the reader is given it *)
Fixpoint universal_newlines (s : string) : string :=
  match s with
  | EmptyString => EmptyString
  | String c s' =>
      if Ascii.eqb c CR then
        match s' with
        | String c' s'' =>
            if Ascii.eqb c' LF then String LF (universal_newlines s'')
            else String LF (universal_newlines s')
        | EmptyString => String LF EmptyString
        end
      else String c (universal_newlines s')
  end.

(** [csv.field_size_limit()] *)
Definition field_size_limit : Z := 131072.

(** A file: a text in UTF-8 that holds the given records, quoted and ended
    as [csv.writer] does, or bytes that are not UTF-8 text. *)
Inductive file :=
  | Utf8 (records : list csv_row)
  | NotUtf8.

(** what a call ends with: a value, or an exception, those of the read
    included *)
Inductive raised := CsvError | UnicodeDecodeError | Raised (e : exn).

Inductive outcome (A : Type) := Returned (a : A) | Failed (e : raised).
Arguments Returned {A} a.
Arguments Failed {A} e.

(** lines 702-704: [list(csv.reader(f))] *)
Definition read_rows (f : file) : outcome (list csv_row) :=
  match f with
  | NotUtf8 => Failed UnicodeDecodeError
  | Utf8 records =>
      let rows : list csv_row := (λ r : csv_row, universal_newlines <$> r) <$> records in
      if forallb (forallb (λ c, Z.of_nat (String.length c) <=? field_size_limit)) rows
      then Returned rows
      else Failed CsvError
  end.

(** Lines 698-827 on the files themselves: what was printed, and the tuple
    returned or the exception raised. *)
Definition load_quote_from_csv_on_disk (today : date) (disk : gmap string file)
    (path : string)
  : list message
    * outcome (gmap string value * list EstimateLine.t * gmap string float
               * list OwnerAllowance.t) :=
  match disk !! path with
  | None => ([QuoteFileNotFound path], Returned (∅, [], ∅, []))
  | Some f =>
      match read_rows f with
      | Failed e => ([], Failed e)
      | Returned rows =>
          ([], match scan_rows rows 0 (initial_state today) with
               | Ok st => Returned (st_meta st, st_lines st, st_totals st, st_allowances st)
               | Raise e => Failed (Raised e)
               end)
      end
  end.

(** * What the decoder computes

    The guards of the decoder make every cell access succeed and every
    conversion error end in a default, so each piece of it equals a function
    without exceptions.  These functions are used to state and prove the
    properties below. *)

#[local] Arguments getitem : simpl never.
#[local] Arguments line_item : simpl never.
#[local] Arguments allowance_item : simpl never.
#[local] Arguments table_end : simpl never.
#[local] Arguments strip : simpl never.
#[local] Arguments py_float : simpl never.
#[local] Arguments py_str : simpl never.

Lemma getitem_lookup {A} (l : list A) (k : nat) (x : A) :
  l !! k = Some x → getitem l (Z.of_nat k) = Ok x.
Proof.
  intros H. unfold getitem.
  destruct (Z.ltb_spec (Z.of_nat k) 0) as [Hk|Hk]; [lia|].
  destruct (Z.ltb_spec (Z.of_nat k) 0); [lia|].
  by rewrite Nat2Z.id, H.
Qed.

Lemma getitem_head {A} (x : A) (l : list A) : getitem (x :: l) 0 = Ok x.
Proof. exact (getitem_lookup (x :: l) 0 x eq_refl). Qed.

Lemma getitem_last {A} (l : list A) (x : A) :
  list.last l = Some x → getitem l (-1) = Ok x.
Proof.
  rewrite last_lookup. intros H. unfold getitem.
  change (-1 <? 0) with true. cbv iota.
  assert (length l ≠ 0%nat) by (intros E; rewrite E in H; by destruct l).
  destruct (Z.ltb_spec (-1 + Z.of_nat (length l)) 0) as [Hk|Hk]; [lia|].
  replace (Z.to_nat (-1 + Z.of_nat (length l))) with (Nat.pred (length l)) by lia.
  by rewrite H.
Qed.

Lemma py_float_raises (s : string) (e : exn) : py_float s = Raise e → e = ValueError.
Proof.
  unfold py_float. intros H.
  destruct (drop_underscores _ _); [|congruence].
  destruct (read_inf_or_nan _); [congruence|].
  destruct (read_decimal _) as [[[? ?] ?]|]; congruence.
Qed.

(** [float(c)], or [0.0] when it raises *)
Definition float_or_zero (c : string) : float :=
  match py_float c with
  | Ok x => x
  | Raise _ => 0%float
  end.

Definition text_of (r : csv_row) (k : nat) : string :=
  match r !! k with
  | Some c => strip c
  | None => ""
  end.

Definition number_of (r : csv_row) (k : nat) : float :=
  match r !! k with
  | Some c => if (strip c =? "")%string then 0%float else float_or_zero c
  | None => 0%float
  end.

Lemma text_at_ok (r : csv_row) (k : nat) (z : Z) :
  z = Z.of_nat k → text_at r z = Ok (text_of r k).
Proof.
  intros ->. unfold text_at, text_of, len.
  destruct (Z.ltb_spec (Z.of_nat k) (Z.of_nat (length r))) as [Hk|Hk].
  - destruct (lookup_lt_is_Some_2 r k ltac:(lia)) as [c Hc].
    by rewrite (getitem_lookup _ _ _ Hc), Hc.
  - by rewrite (lookup_ge_None_2 r k ltac:(lia)).
Qed.

Lemma number_at_ok (r : csv_row) (k : nat) (z : Z) :
  z = Z.of_nat k → number_at r z = Ok (number_of r k).
Proof.
  intros ->. unfold number_at, number_of, len, float_or_zero.
  destruct (Z.ltb_spec (Z.of_nat k) (Z.of_nat (length r))) as [Hk|Hk].
  - destruct (lookup_lt_is_Some_2 r k ltac:(lia)) as [c Hc].
    rewrite !(getitem_lookup _ _ _ Hc), Hc. simpl.
    destruct (strip c =? "")%string; simpl; [done|].
    destruct (py_float c) as [x|e] eqn:E; [done|].
    by rewrite (py_float_raises _ _ E).
  - by rewrite (lookup_ge_None_2 r k ltac:(lia)).
Qed.

Definition line_of_row (r : csv_row) : EstimateLine.t :=
  EstimateLine.mk (text_of r 0) (text_of r 1) (text_of r 3)
    (number_of r 4) (number_of r 5) (text_of r 2).

Lemma line_item_ok (r : csv_row) : line_item r = Ok (line_of_row r).
Proof.
  unfold line_item.
  rewrite (text_at_ok r 0 0), (text_at_ok r 1 1), (text_at_ok r 2 2), (text_at_ok r 3 3) by done.
  by rewrite (number_at_ok r 4 4), (number_at_ok r 5 5).
Qed.

Definition allowance_of_row (r : csv_row) : OwnerAllowance.t :=
  OwnerAllowance.mk (text_of r 0) (number_of r 1) (number_of r 2).

Lemma allowance_item_ok (r : csv_row) : allowance_item r = Ok (allowance_of_row r).
Proof.
  unfold allowance_item.
  by rewrite (text_at_ok r 0 0), (number_at_ok r 1 1), (number_at_ok r 2 2).
Qed.

(** the first cell of a row, stripped; [""] for a row without cells *)
Definition row_key (r : csv_row) : string := text_of r 0.

(** the rows at which the table loop breaks *)
Definition ends_table (r : csv_row) : bool :=
  match r with
  | [] => true
  | _ :: _ => table_end (row_key r)
  end.

(** the line items the table loop appends, and the rows it consumes *)
Fixpoint table_lines (rows : list csv_row) : list EstimateLine.t :=
  match rows with
  | [] => []
  | r :: rest =>
      if ends_table r then []
      else if all_blank r then table_lines rest
      else line_of_row r :: table_lines rest
  end.

Fixpoint table_len (rows : list csv_row) : nat :=
  match rows with
  | [] => 0
  | r :: rest => if ends_table r then 0 else S (table_len rest)
  end.

Lemma read_line_items_ok (rows : list csv_row) (lines : list EstimateLine.t) :
  read_line_items rows lines = Ok (lines ++ table_lines rows, table_len rows).
Proof.
  revert lines. induction rows as [|r rest IH]; intros lines; simpl.
  - by rewrite app_nil_r.
  - destruct r as [|c r]; simpl; [by rewrite app_nil_r|].
    change (row_key (c :: r)) with (strip c).
    destruct (table_end (strip c)); simpl; [by rewrite app_nil_r|].
    destruct (_ && _); simpl.
    + by rewrite IH.
    + rewrite line_item_ok. simpl. rewrite IH. simpl. by rewrite <- app_assoc.
Qed.

(** the allowances the allowance loop appends, and the rows it consumes *)
Fixpoint block_allowances (rows : list csv_row) : list OwnerAllowance.t :=
  match rows with
  | [] => []
  | r :: rest =>
      match r with
      | [] => block_allowances rest
      | _ :: _ =>
          if (row_key r =? "OwnerAllowancesTotal")%string then []
          else allowance_of_row r :: block_allowances rest
      end
  end.

Fixpoint block_len (rows : list csv_row) : nat :=
  match rows with
  | [] => 0
  | r :: rest =>
      match r with
      | [] => S (block_len rest)
      | _ :: _ =>
          if (row_key r =? "OwnerAllowancesTotal")%string then 0 else S (block_len rest)
      end
  end.

Lemma read_allowances_ok (rows : list csv_row) (allowances : list OwnerAllowance.t) :
  read_allowances rows allowances = Ok (allowances ++ block_allowances rows, block_len rows).
Proof.
  revert allowances. induction rows as [|r rest IH]; intros allowances; simpl.
  - by rewrite app_nil_r.
  - destruct r as [|c r].
    + rewrite IH. done.
    + change (row_key (c :: r)) with (strip c).
      rewrite getitem_head. simpl.
      destruct (strip c =? "OwnerAllowancesTotal")%string; simpl; [by rewrite app_nil_r|].
      rewrite allowance_item_ok. simpl. rewrite IH. simpl. by rewrite <- app_assoc.
Qed.

Lemma parse_mmddyyyy_raises (s : string) (e : exn) :
  parse_mmddyyyy s = Raise e → e = ValueError.
Proof.
  unfold parse_mmddyyyy, strptime_mdY. intros H.
  destruct (match_field month_alts s) as [[m s1]|]; [|congruence].
  destruct (match_field day_alts s1) as [[d s2]|]; [|congruence].
  destruct (match_year s2) as [[y [|? ?]]|]; [|congruence..].
  destruct (valid_date _); congruence.
Qed.

(** the cell at an index, and the last cell, as they are ([""] if missing) *)
Definition cell (r : csv_row) (k : nat) : string := default "" (r !! k).

Definition last_cell (r : csv_row) : string := default "" (list.last r).

(** the date a [Date] row sets, if its cell is a date *)
Definition date_of (r : csv_row) : option date :=
  match parse_mmddyyyy (text_of r 1) with
  | Ok d => Some d
  | Raise _ => None
  end.

(** one turn of the outer loop *)
Definition outer_step (row : csv_row) (rest : list csv_row) (st : state) : state * nat :=
  match row with
  | [] => (st, 0%nat)
  | _ :: _ =>
      let key := row_key row in
      if (key =? "DocType")%string && (1 <? len row) then
        (set_meta st "doc_type" (VStr (text_of row 1)), 0%nat)
      else if (key =? "JobID")%string && (1 <? len row) then
        (set_meta st "job_id" (VStr (text_of row 1)), 0%nat)
      else if (key =? "Project")%string && (1 <? len row) then
        (set_meta st "project_name" (VStr (text_of row 1)), 0%nat)
      else if (key =? "Client")%string && (1 <? len row) then
        (set_meta st "client_name" (VStr (text_of row 1)), 0%nat)
      else if (key =? "Address")%string && (1 <? len row) then
        (set_meta st "project_address" (VStr (text_of row 1)), 0%nat)
      else if (key =? "Date")%string && (1 <? len row) then
        (match date_of row with
         | Some d => set_meta st "doc_date" (VDate d)
         | None => st
         end, 0%nat)
      else if (key =? "ReceiptsTotal")%string && (1 <? len row) then
        (set_total st "receipts_total" (float_or_zero (cell row 1)), 0%nat)
      else if (key =? "Section")%string then
        (set_lines st (st_lines st ++ table_lines rest), table_len rest)
      else if (key =? "Subtotal")%string then
        (set_total st "subtotal" (float_or_zero (last_cell row)), 0%nat)
      else if (key =? "GrandTotal")%string then
        (set_total st "grand_total" (float_or_zero (last_cell row)), 0%nat)
      else if (key =? allowances_marker)%string then
        (set_allowances st (st_allowances st ++ block_allowances (tail rest)),
         S (S (block_len (tail rest))))
      else (st, 0%nat)
  end.

Lemma total_of_ok (c : string) : total_of (Ok c) = Ok (float_or_zero c).
Proof.
  unfold total_of, float_or_zero. simpl.
  destruct (py_float c) as [x|e] eqn:E; [done|].
  by rewrite (py_float_raises _ _ E).
Qed.

Lemma outer_row_ok (row : csv_row) (rest : list csv_row) (st : state) :
  outer_row row rest st = Ok (outer_step row rest st).
Proof.
  destruct row as [|c row]; [done|].
  unfold outer_row, outer_step.
  rewrite getitem_head. simpl.
  change (row_key (c :: row)) with (strip c).
  assert (Hlast : getitem (c :: row) (-1) = Ok (last_cell (c :: row))).
  { unfold last_cell. destruct (list.last (c :: row)) as [x|] eqn:E.
    - by apply getitem_last.
    - by apply last_None in E. }
  assert (Htail :
    (if (strip c =? "Section")%string
     then read_line_items rest (st_lines st) ≫= λ '(lines, n), Ok (set_lines st lines, n)
     else if (strip c =? "Subtotal")%string
     then total_of (getitem (c :: row) (-1)) ≫= λ x, Ok (set_total st "subtotal" x, 0%nat)
     else if (strip c =? "GrandTotal")%string
     then total_of (getitem (c :: row) (-1)) ≫= λ x, Ok (set_total st "grand_total" x, 0%nat)
     else if (strip c =? allowances_marker)%string
     then read_allowances (tail rest) (st_allowances st)
            ≫= λ '(allowances, n), Ok (set_allowances st allowances, S (S n))
     else Ok (st, 0%nat))
    = Ok (if (strip c =? "Section")%string
          then (set_lines st (st_lines st ++ table_lines rest), table_len rest)
          else if (strip c =? "Subtotal")%string
          then (set_total st "subtotal" (float_or_zero (last_cell (c :: row))), 0%nat)
          else if (strip c =? "GrandTotal")%string
          then (set_total st "grand_total" (float_or_zero (last_cell (c :: row))), 0%nat)
          else if (strip c =? allowances_marker)%string
          then (set_allowances st (st_allowances st ++ block_allowances (tail rest)),
                S (S (block_len (tail rest))))
          else (st, 0%nat))).
  { rewrite Hlast, !total_of_ok, read_line_items_ok, read_allowances_ok. simpl.
    by repeat case_match. }
  destruct row as [|v row].
  - change (1 <? len [c]) with false. rewrite !andb_false_r. exact Htail.
  - assert (Hwide : (1 <? len (c :: v :: row)) = true).
    { apply Z.ltb_lt. unfold len. simpl. lia. }
    rewrite Hwide, !andb_true_r.
    assert (Hv : getitem (c :: v :: row) 1 = Ok v) by done.
    rewrite Hv, total_of_ok. simpl.
    unfold date_of. change (text_of (c :: v :: row) 1) with (strip v).
    change (cell (c :: v :: row) 1) with v.
    destruct (parse_mmddyyyy (strip v)) as [d|e] eqn:E; simpl.
    + repeat case_match; try done; exact Htail.
    + rewrite (parse_mmddyyyy_raises _ _ E). simpl.
      repeat case_match; try done; exact Htail.
Qed.

(** the outer loop *)
Fixpoint scan (rows : list csv_row) (skip : nat) (st : state) : state :=
  match rows with
  | [] => st
  | row :: rest =>
      match skip with
      | S k => scan rest k st
      | O => scan rest (snd (outer_step row rest st)) (fst (outer_step row rest st))
      end
  end.

Lemma scan_rows_ok (rows : list csv_row) (skip : nat) (st : state) :
  scan_rows rows skip st = Ok (scan rows skip st).
Proof.
  revert skip st. induction rows as [|row rest IH]; intros skip st; [done|].
  destruct skip as [|k]; simpl; [|apply IH].
  rewrite outer_row_ok. simpl. destruct (outer_step row rest st) as [st' n]. apply IH.
Qed.

(** what is read from the rows of an existing file *)
Definition decoded (today : date) (rows : list csv_row)
  : gmap string value * list EstimateLine.t * gmap string float * list OwnerAllowance.t :=
  let st := scan rows 0 (initial_state today) in
  (st_meta st, st_lines st, st_totals st, st_allowances st).

Lemma load_existing (today : date) (fs : filesystem) (path : string) (rows : list csv_row) :
  fs !! path = Some rows →
  load_quote_from_csv today fs path = ([], Ok (decoded today rows)).
Proof.
  intros H. unfold load_quote_from_csv. rewrite H, scan_rows_ok. done.
Qed.

Lemma scan_skip (rows : list csv_row) (k : nat) (st : state) :
  scan rows k st = scan (drop k rows) 0 st.
Proof.
  revert k. induction rows as [|row rest IH]; intros k; [by destruct k|].
  destruct k as [|k]; [done|]. simpl. apply IH.
Qed.

Lemma scan_cons (row : csv_row) (rest : list csv_row) (st : state) :
  scan (row :: rest) 0 st =
  scan (drop (snd (outer_step row rest st)) rest) 0 (fst (outer_step row rest st)).
Proof. simpl. apply scan_skip. Qed.

(** * Properties of the decoder *)

(** *** The read of a file *)

(** on the rows that the read obtains, the function on the files is the
    function on the rows *)
Lemma load_on_disk_read (today : date) (disk : gmap string file) (path : string) (f : file)
    (rows : list csv_row) :
  disk !! path = Some f →
  read_rows f = Returned rows →
  load_quote_from_csv_on_disk today disk path = ([], Returned (decoded today rows)).
Proof.
  intros Hf Hrows. unfold load_quote_from_csv_on_disk. by rewrite Hf, Hrows, scan_rows_ok.
Qed.

Lemma load_on_disk_failed (today : date) (disk : gmap string file) (path : string) (f : file)
    (e : raised) :
  disk !! path = Some f →
  read_rows f = Failed e →
  load_quote_from_csv_on_disk today disk path = ([], Failed e).
Proof. intros Hf He. unfold load_quote_from_csv_on_disk. by rewrite Hf, He. Qed.

(** [s], doubled [k] times *)
Fixpoint doubled (k : nat) (s : string) : string :=
  match k with
  | O => s
  | S k' => doubled k' (s +:+ s)
  end.

(** a cell of 131073 characters *)
Definition long_cell : string := String "0" (doubled 17 "0").

(** C10, as stated, fails: a file is read before its rows are decoded, and
    the read is not guarded.  For the file that holds the one row [Project]
    with a cell of 131073 zeros, [csv.reader] raises [csv.Error], and so does
    the decoder. *)
Lemma oversize_cell_raises :
  ¬ (∃ meta lines totals allowances,
       load_quote_from_csv_on_disk (mkdate 2026 1 1)
         {["q.csv" := Utf8 [["Project"; long_cell]]]} "q.csv"
       = ([], Returned (meta, lines, totals, allowances))).
Proof.
  intros (meta & lines & totals & allowances & H).
  assert (E : match snd (load_quote_from_csv_on_disk (mkdate 2026 1 1)
                           {["q.csv" := Utf8 [["Project"; long_cell]]]} "q.csv") with
              | Returned _ => true
              | Failed _ => false
              end = true) by (by rewrite H).
  vm_compute in E. discriminate.
Qed.

(** C10, amended.  For every file that the read turns into rows, that is
    every finite list of rows of text cells, rows without cells included, the
    decoder returns without raising: each cell access is guarded, and each
    failed conversion ends in a default. *)
Theorem load_never_raises (today : date) (disk : gmap string file) (path : string)
    (f : file) (rows : list csv_row) :
  disk !! path = Some f →
  read_rows f = Returned rows →
  ∃ meta lines totals allowances,
    load_quote_from_csv_on_disk today disk path
    = ([], Returned (meta, lines, totals, allowances)).
Proof.
  intros Hf Hrows. rewrite (load_on_disk_read today disk path f rows Hf Hrows).
  unfold decoded. eauto.
Qed.

Lemma load_never_raises_witness :
  ∃ meta lines totals allowances,
    load_quote_from_csv_on_disk (mkdate 2026 1 1)
      {["q.csv" := Utf8 [["Subtotal"]; []; ["Date"]; ["Section"]; ["x"; "y"]]]} "q.csv"
    = ([], Returned (meta, lines, totals, allowances)).
Proof.
  apply (load_never_raises (mkdate 2026 1 1) _ "q.csv"
           (Utf8 [["Subtotal"]; []; ["Date"]; ["Section"]; ["x"; "y"]])
           [["Subtotal"]; []; ["Date"]; ["Section"]; ["x"; "y"]]).
  - apply lookup_singleton_eq.
  - vm_compute. reflexivity.
Defined.

(** the totals with which the decoder starts on an existing file *)
Definition zeroed_totals : gmap string float :=
  <["grand_total" := 0%float]> (<["receipts_total" := 0%float]> (<["subtotal" := 0%float]> ∅)).

(** C5, as stated, fails: for a missing file the totals returned are not the
    zeroed totals; the dictionary has no entry at all. *)
Lemma missing_file_totals_not_zeroed :
  ¬ (∃ meta, snd (load_quote_from_csv (mkdate 2026 1 1) ∅ "missing.csv")
             = Ok (meta, [], zeroed_totals, [])).
Proof.
  intros [meta H].
  assert (E : match snd (load_quote_from_csv (mkdate 2026 1 1) ∅ "missing.csv") with
              | Ok (_, _, totals, _) => totals !! "subtotal"
              | Raise _ => None
              end = Some 0%float) by (by rewrite H).
  vm_compute in E. discriminate.
Qed.

(** C5, amended.  For a path at which there is no file, the decoder prints the
    file-not-found message and returns, without raising, an empty [meta], no
    line items, an empty [totals] and no allowances; a total read from it with
    the default [0.0] is [0.0]. *)
Theorem load_missing_file (today : date) (fs : filesystem) (path : string) :
  load_quote_from_csv today (delete path fs) path
  = ([QuoteFileNotFound path], Ok (∅, [], ∅, []))
  ∧ ∀ k, dict_get (∅ : gmap string float) k 0%float = 0%float.
Proof.
  split; [|done].
  unfold load_quote_from_csv. by rewrite lookup_delete_eq.
Qed.

(** *** The date *)







(** * Properties of the totals *)

Lemma compute_totals_entries (lines : list EstimateLine.t) (receipts_total : float) :
  ∃ subtotal,
    compute_totals lines receipts_total !! "subtotal" = Some subtotal
    ∧ compute_totals lines receipts_total !! "receipts_total" = Some receipts_total
    ∧ compute_totals lines receipts_total !! "grand_total"
      = Some (subtotal + receipts_total)%float.
Proof.
  exists (py_sum (EstimateLine.total <$> lines)). unfold compute_totals.
  repeat split; by simplify_map_eq.
Qed.

(** C3.  With no manual override, that is with the totals that
    [compute_totals] returns, the grand total is the subtotal plus the receipts
    total. *)
Theorem grand_total_is_subtotal_plus_receipts (lines : list EstimateLine.t)
    (receipts_total : float) :
  ∃ subtotal,
    compute_totals lines receipts_total !! "subtotal" = Some subtotal
    ∧ compute_totals lines receipts_total !! "receipts_total" = Some receipts_total
    ∧ compute_totals lines receipts_total !! "grand_total"
      = Some (subtotal + receipts_total)%float.
Proof. apply compute_totals_entries. Qed.

(** * Properties of the encoder *)

(** the rows of a document, in the order in which they are written *)
Definition header_rows (job_id doc_type project_name project_address client_name date_str : string)
    (receipts_total : float) : list csv_row :=
  [ ["DocType"; doc_type]; ["JobID"; job_id]; ["Project"; project_name];
    ["Client"; client_name]; ["Address"; project_address]; ["Date"; date_str];
    ["ReceiptsTotal"; py_str receipts_total] ].

Definition table_header : csv_row :=
  ["Section"; "Description"; "FullDescription"; "WorkerType"; "Hours/Qty";
   "Rate/UnitPrice"; "LineTotal"].

Definition line_row (l : EstimateLine.t) : csv_row :=
  [EstimateLine.section l; EstimateLine.description l; EstimateLine.detail l;
   EstimateLine.worker_type l; py_str (EstimateLine.hours l); py_str (EstimateLine.rate l);
   py_str (EstimateLine.hours l * EstimateLine.rate l)%float].

Definition total_row (label : string) (x : float) : csv_row :=
  [label; ""; ""; ""; ""; ""; py_str x].

Definition allowance_row (a : OwnerAllowance.t) : csv_row :=
  [OwnerAllowance.description a; py_str (OwnerAllowance.quantity a);
   py_str (OwnerAllowance.unit_cost a);
   py_str (OwnerAllowance.quantity a * OwnerAllowance.unit_cost a)%float].

Definition allowance_header : csv_row := ["Description"; "Quantity"; "EstUnitCost"; "EstTotal"].

Definition allowance_rows (allowances : list OwnerAllowance.t) : list csv_row :=
  match allowances with
  | [] => []
  | _ :: _ =>
      [[]; [allowances_marker]; allowance_header]
      ++ (allowance_row <$> allowances)
      ++ [["OwnerAllowancesTotal"; ""; ""; "";
           py_str (fold_left PrimFloat.add (OwnerAllowance.total <$> allowances) 0%float)]]
  end.

Definition document_rows (job_id doc_type project_name project_address client_name : string)
    (lines : list EstimateLine.t) (receipts_total subtotal grand_total : float)
    (allowances : list OwnerAllowance.t) (date_str : string) : list csv_row :=
  header_rows job_id doc_type project_name project_address client_name date_str receipts_total
  ++ [[]; table_header]
  ++ (line_row <$> lines)
  ++ [[]; total_row "Subtotal" subtotal; total_row "GrandTotal" grand_total]
  ++ allowance_rows allowances.

Lemma write_lines (lines : list EstimateLine.t) (w : list csv_row) :
  fold_left
    (fun w line =>
       writerow w [FStr (EstimateLine.section line); FStr (EstimateLine.description line);
                   FStr (EstimateLine.detail line); FStr (EstimateLine.worker_type line);
                   FNum (EstimateLine.hours line); FNum (EstimateLine.rate line);
                   FNum (EstimateLine.total line)])
    lines w
  = w ++ (line_row <$> lines).
Proof.
  revert w. induction lines as [|l lines IH]; intros w; simpl.
  - by rewrite app_nil_r.
  - rewrite IH. unfold writerow. by rewrite <- app_assoc.
Qed.

Lemma write_allowances (allowances : list OwnerAllowance.t) (w : list csv_row) (acc : float) :
  fold_left
    (fun '(w, allowance_total) a =>
       (writerow w [FStr (OwnerAllowance.description a); FNum (OwnerAllowance.quantity a);
                    FNum (OwnerAllowance.unit_cost a); FNum (OwnerAllowance.total a)],
        (allowance_total + OwnerAllowance.total a)%float))
    allowances (w, acc)
  = (w ++ (allowance_row <$> allowances),
     fold_left PrimFloat.add (OwnerAllowance.total <$> allowances) acc).
Proof.
  revert w acc. induction allowances as [|a allowances IH]; intros w acc; simpl.
  - by rewrite app_nil_r.
  - rewrite IH. unfold writerow. by rewrite <- app_assoc.
Qed.

Lemma write_document_rows (job_id doc_type project_name project_address client_name : string)
    (lines : list EstimateLine.t) (totals : gmap string float)
    (allowances : list OwnerAllowance.t) (date_str : string) (subtotal grand_total : float) :
  totals !! "subtotal" = Some subtotal →
  totals !! "grand_total" = Some grand_total →
  write_document job_id doc_type project_name project_address client_name lines totals
    allowances date_str
  = (document_rows job_id doc_type project_name project_address client_name lines
       (dict_get totals "receipts_total" 0%float) subtotal grand_total allowances date_str,
     Ok tt).
Proof.
  intros Hs Hg. unfold write_document, dict_getitem. rewrite Hs, Hg, write_lines.
  unfold document_rows, writerow. simpl.
  destruct allowances as [|a allowances]; simpl.
  - by rewrite <- !app_assoc.
  - rewrite write_allowances. simpl. by rewrite <- !app_assoc.
Qed.

Lemma save_document_rows (fs : filesystem)
    (job_dir job_id doc_type project_name project_address client_name : string)
    (lines : list EstimateLine.t) (totals : gmap string float)
    (allowances : list OwnerAllowance.t) (doc_date : date) (subtotal grand_total : float) :
  totals !! "subtotal" = Some subtotal →
  totals !! "grand_total" = Some grand_total →
  let path :=
    os_path_join job_dir (job_id +:+ "_" +:+ doc_type +:+ "_" +:+ format_date doc_date +:+ ".csv") in
  save_document_csv fs job_dir job_id doc_type project_name project_address client_name
    lines totals allowances doc_date
  = (<[path :=
         document_rows job_id doc_type project_name project_address client_name lines
           (dict_get totals "receipts_total" 0%float) subtotal grand_total allowances
           (format_date doc_date)]> fs,
     Ok path).
Proof.
  intros Hs Hg path. unfold save_document_csv.
  by rewrite (write_document_rows _ _ _ _ _ _ _ _ _ _ _ Hs Hg).
Qed.


(** A quote with two line items and one allowance. *)
Definition demo_lines : list EstimateLine.t :=
  [EstimateLine.mk "" "Demo" "Labor" 1 500 "";
   EstimateLine.mk "Floor" "Tile" "Material" 10 12.5 "porcelain"].


Definition demo_allowances : list OwnerAllowance.t := [OwnerAllowance.mk "Fridge" 1 1200].

Definition demo_date : date := mkdate 2024 3 7.


(** The rows of the demo quote, as text. *)
Example demo_rows :
  document_rows "J0001" "quote" "Kitchen" "1 Main St" "Ann" demo_lines 0 625 625
    demo_allowances (format_date demo_date)
  = [ ["DocType"; "quote"]; ["JobID"; "J0001"]; ["Project"; "Kitchen"]; ["Client"; "Ann"];
      ["Address"; "1 Main St"]; ["Date"; "03-07-2024"]; ["ReceiptsTotal"; "0.0"];
      [];
      ["Section"; "Description"; "FullDescription"; "WorkerType"; "Hours/Qty";
       "Rate/UnitPrice"; "LineTotal"];
      [""; "Demo"; ""; "Labor"; "1.0"; "500.0"; "500.0"];
      ["Floor"; "Tile"; "porcelain"; "Material"; "10.0"; "12.5"; "125.0"];
      [];
      ["Subtotal"; ""; ""; ""; ""; ""; "625.0"];
      ["GrandTotal"; ""; ""; ""; ""; ""; "625.0"];
      [];
      ["Owner Allowances (client purchases directly)"];
      ["Description"; "Quantity"; "EstUnitCost"; "EstTotal"];
      ["Fridge"; "1.0"; "1200.0"; "1200.0"];
      ["OwnerAllowancesTotal"; ""; ""; ""; "1200.0"] ].
Proof. vm_compute. reflexivity. Qed.

(** C4.  The totals that [compute_totals] returns are computed from the line
    items and the receipts total alone; and whatever the allowances are, the
    encoder writes the same rows up to and including the [Subtotal] and
    [GrandTotal] rows, which carry these totals.  The allowances only add the
    rows [allowance_rows] after them, whose last row carries their sum. *)
Theorem allowances_do_not_touch_totals (fs : filesystem)
    (job_dir job_id doc_type project_name project_address client_name : string)
    (lines : list EstimateLine.t) (receipts_total : float) (doc_date : date) :
  ∃ (subtotal grand_total : float) (common : list csv_row) (path : string),
    compute_totals lines receipts_total !! "subtotal" = Some subtotal
    ∧ compute_totals lines receipts_total !! "grand_total" = Some grand_total
    ∧ list.last common = Some (total_row "GrandTotal" grand_total)
    ∧ common !! (length lines + 10)%nat = Some (total_row "Subtotal" subtotal)
    ∧ ∀ allowances : list OwnerAllowance.t,
        save_document_csv fs job_dir job_id doc_type project_name project_address
          client_name lines (compute_totals lines receipts_total) allowances doc_date
        = (<[path := common ++ allowance_rows allowances]> fs, Ok path).
Proof.
  destruct (compute_totals_entries lines receipts_total) as (subtotal & Hs & Hr & Hg).
  exists subtotal, (subtotal + receipts_total)%float,
    (header_rows job_id doc_type project_name project_address client_name
       (format_date doc_date) receipts_total
     ++ [[]; table_header] ++ (line_row <$> lines)
     ++ [[]; total_row "Subtotal" subtotal;
         total_row "GrandTotal" (subtotal + receipts_total)%float]),
    (os_path_join job_dir
       (job_id +:+ "_" +:+ doc_type +:+ "_" +:+ format_date doc_date +:+ ".csv")).
  split; [done|]. split; [done|]. split; [|split].
  - by rewrite !last_app.
  - change (header_rows _ _ _ _ _ _ _ ++ [[]; table_header] ++ (line_row <$> lines) ++ ?t)
      with ((header_rows job_id doc_type project_name project_address client_name
               (format_date doc_date) receipts_total ++ [[]; table_header])
            ++ (line_row <$> lines) ++ t).
    rewrite lookup_app_r by (simpl; lia).
    rewrite lookup_app_r by (rewrite length_fmap; simpl; lia).
    rewrite length_fmap. simpl.
    by replace (length lines + 10 - 9 - length lines)%nat with 1%nat by lia.
  - intros allowances.
    rewrite (save_document_rows fs job_dir job_id doc_type project_name
               project_address client_name lines _ allowances doc_date _ _ Hs Hg).
    unfold document_rows, dict_get. rewrite Hr. simpl.
    by rewrite <- !app_assoc.
Qed.

(** *** The line-item table *)

(** The table as the specification words it: it starts after the row whose
    first cell is [Section] and goes on until a row whose first cell is
    [Subtotal], [GrandTotal] or the marker, or until the end of the file; a
    row that is blank throughout, a row without cells included, is passed
    over. *)
Fixpoint spec_table_lines (rows : list csv_row) : list EstimateLine.t :=
  match rows with
  | [] => []
  | r :: rest =>
      if table_end (row_key r) then []
      else if all_blank r then spec_table_lines rest
      else line_of_row r :: spec_table_lines rest
  end.

Fixpoint spec_lines (rows : list csv_row) : list EstimateLine.t :=
  match rows with
  | [] => []
  | r :: rest =>
      if (row_key r =? "Section")%string then spec_table_lines rest else spec_lines rest
  end.

(** a table in which an empty line separates two line items *)
Definition gap_rows : list csv_row :=
  [ table_header;
    [""; "Demo"; ""; "Labor"; "1.0"; "500.0"; "500.0"];
    [];
    ["Floor"; "Tile"; "porcelain"; "Material"; "10.0"; "12.5"; "125.0"];
    [];
    ["Subtotal"; ""; ""; ""; ""; ""; "625.0"];
    ["GrandTotal"; ""; ""; ""; ""; ""; "625.0"] ].

(** C7, as stated, fails: a row without cells inside the table is not passed
    over, it ends the table, and the line item after it is not read. *)
Lemma empty_row_ends_table :
  ¬ (∃ meta totals allowances,
       load_quote_from_csv demo_date (<["q.csv" := gap_rows]> ∅) "q.csv"
       = ([], Ok (meta, spec_lines gap_rows, totals, allowances))).
Proof.
  intros (meta & totals & allowances & H).
  rewrite (load_existing _ _ _ gap_rows) in H by apply lookup_insert_eq.
  unfold decoded in H.
  assert (Hl : st_lines (scan gap_rows 0 (initial_state demo_date)) = spec_lines gap_rows)
    by congruence.
  vm_compute in Hl. discriminate.
Qed.

(** a row that is neither a table header nor the allowances marker *)
Definition plain (r : csv_row) : Prop :=
  row_key r ≠ "Section" ∧ row_key r ≠ allowances_marker.

Lemma outer_step_plain (row : csv_row) (rest rest' : list csv_row) (st : state) :
  plain row → outer_step row rest st = (fst (outer_step row rest' st), 0%nat).
Proof.
  intros [Hs Hm]. destruct row as [|c row]; [done|].
  unfold outer_step.
  destruct (row_key (c :: row) =? "Section")%string eqn:Es;
    [by apply String.eqb_eq in Es|].
  destruct (row_key (c :: row) =? allowances_marker)%string eqn:Em;
    [by apply String.eqb_eq in Em|].
  by repeat case_match.
Qed.

Lemma outer_step_lines (row : csv_row) (rest : list csv_row) (st : state) :
  row_key row ≠ "Section" → st_lines (fst (outer_step row rest st)) = st_lines st.
Proof.
  intros Hs. destruct row as [|c row]; [done|].
  unfold outer_step.
  destruct (row_key (c :: row) =? "Section")%string eqn:Es;
    [by apply String.eqb_eq in Es|].
  by repeat case_match.
Qed.

Lemma outer_step_section (row : csv_row) (rest : list csv_row) (st : state) :
  row_key row = "Section" →
  outer_step row rest st = (set_lines st (st_lines st ++ table_lines rest), table_len rest).
Proof.
  intros Hs. destruct row as [|c row]; [done|].
  unfold outer_step. by rewrite Hs.
Qed.

Lemma scan_lines_no_section (rows : list csv_row) (skip : nat) (st : state) :
  Forall (λ r, row_key r ≠ "Section") rows → st_lines (scan rows skip st) = st_lines st.
Proof.
  intros H. revert skip st. induction H as [|row rest Hrow _ IH]; intros skip st; [done|].
  destruct skip as [|k]; simpl; [|apply IH].
  rewrite IH. by apply outer_step_lines.
Qed.

Lemma scan_plain_prefix (pre rows : list csv_row) (st : state) :
  Forall plain pre → scan (pre ++ rows) 0 st = scan rows 0 (scan pre 0 st).
Proof.
  intros H. revert st. induction H as [|row pre Hrow _ IH]; intros st; [done|].
  simpl. rewrite (outer_step_plain row (pre ++ rows) pre st Hrow). simpl.
  rewrite IH. f_equal.
  by rewrite (outer_step_plain row pre pre st Hrow).
Qed.

Lemma table_of_rows (tbl rest : list csv_row) :
  Forall (λ r, ends_table r = false) tbl →
  match rest with [] => True | r :: _ => ends_table r = true end →
  table_lines (tbl ++ rest) = line_of_row <$> filter (λ r, all_blank r = false) tbl
  ∧ table_len (tbl ++ rest) = length tbl.
Proof.
  intros H Hrest. induction H as [|r tbl Hr _ [IH1 IH2]]; simpl.
  - destruct rest as [|r rest]; [done|]. simpl. by rewrite Hrest.
  - rewrite Hr, IH1, IH2. split; [|done].
    rewrite filter_cons. destruct (all_blank r); by case_decide.
Qed.

Lemma table_lines_read (pre tbl rest : list csv_row) (hdr : csv_row) (st : state) :
  Forall plain pre →
  row_key hdr = "Section" →
  Forall (λ r, ends_table r = false) tbl →
  match rest with [] => True | r :: _ => ends_table r = true end →
  Forall (λ r, row_key r ≠ "Section") rest →
  st_lines (scan (pre ++ hdr :: tbl ++ rest) 0 st)
  = st_lines st ++ (line_of_row <$> filter (λ r, all_blank r = false) tbl).
Proof.
  intros Hpre Hhdr Htbl Hrest Hafter.
  destruct (table_of_rows tbl rest Htbl Hrest) as [Hl Hn].
  rewrite scan_plain_prefix by done.
  rewrite scan_cons, (outer_step_section _ _ _ Hhdr). simpl.
  rewrite Hn, drop_app_length, scan_lines_no_section by done. simpl.
  rewrite Hl. f_equal.
  apply scan_lines_no_section. eapply Forall_impl; [exact Hpre|]. by intros r [? _].
Qed.

(** C7, amended.  The table starts after the first [Section] row that is met
    outside an allowances block, and goes on until a row without cells, a row
    whose first cell, stripped, is [Subtotal], [GrandTotal] or the marker, or
    the end of the file.  A row that has cells, all of them blank, is passed
    over.  No row after the end of the table becomes a line item unless a
    further [Section] row follows. *)
Theorem table_runs_to_its_end (today : date) (fs : filesystem) (path : string)
    (pre tbl rest : list csv_row) (hdr : csv_row) :
  Forall plain pre →
  row_key hdr = "Section" →
  Forall (λ r, ends_table r = false) tbl →
  match rest with [] => True | r :: _ => ends_table r = true end →
  Forall (λ r, row_key r ≠ "Section") rest →
  ∃ meta totals allowances,
    load_quote_from_csv today (<[path := pre ++ hdr :: tbl ++ rest]> fs) path
    = ([], Ok (meta, line_of_row <$> filter (λ r, all_blank r = false) tbl,
               totals, allowances)).
Proof.
  intros Hpre Hhdr Htbl Hrest Hafter.
  rewrite (load_existing today _ path (pre ++ hdr :: tbl ++ rest)) by apply lookup_insert_eq.
  unfold decoded. rewrite (table_lines_read pre tbl rest hdr _ Hpre Hhdr Htbl Hrest Hafter).
  simpl. eauto.
Qed.

(** the rows of a hand-edited table: a line item, a row of blank cells, a line
    item whose rate is not a number *)
Definition edited_table : list csv_row :=
  [ [""; "Demo"; ""; "Labor"; "1.0"; "500.0"; "500.0"];
    [" "; ""; ""; ""; ""; ""; ""];
    ["Floor"; "Tile"; "porcelain"; "Material"; "10.0"; "n/a"; "125.0"] ].

Lemma table_runs_to_its_end_witness :
  ∃ meta totals allowances,
    load_quote_from_csv demo_date
      (<["q.csv" := [["DocType"; "quote"]; []; ["Project"; "Kitchen"]]
                    ++ table_header :: edited_table
                    ++ [[]; ["Subtotal"; ""; ""; ""; ""; ""; "625.0"]]]> ∅) "q.csv"
    = ([], Ok (meta, line_of_row <$> filter (λ r, all_blank r = false) edited_table,
               totals, allowances)).
Proof.
  apply (table_runs_to_its_end demo_date ∅ "q.csv"
           [["DocType"; "quote"]; []; ["Project"; "Kitchen"]] edited_table
           [[]; ["Subtotal"; ""; ""; ""; ""; ""; "625.0"]] table_header).
  - repeat constructor; vm_compute; discriminate.
  - reflexivity.
  - repeat constructor.
  - reflexivity.
  - repeat constructor; vm_compute; discriminate.
Defined.

(** * Facts about the runtime *)

(** a character that is not whitespace *)
Fixpoint has_ink (s : string) : bool :=
  match s with
  | EmptyString => false
  | String c s' => negb (is_space c) || has_ink s'
  end.

Lemma has_ink_app (a b : string) : has_ink (a +:+ b) = has_ink a || has_ink b.
Proof. induction a as [|c a IH]; simpl; [done|]. by rewrite IH, orb_assoc. Qed.

Lemma has_ink_lstrip (s : string) : has_ink (lstrip s) = has_ink s.
Proof.
  induction s as [|c s IH]; simpl; [done|].
  destruct (is_space c) eqn:E; simpl; by rewrite ?E.
Qed.

Lemma rstrip_empty (s : string) : rstrip s = "" ↔ has_ink s = false.
Proof.
  induction s as [|c s IH]; simpl; [done|].
  destruct (rstrip s) eqn:E.
  - destruct IH as [IH _]. rewrite (IH eq_refl), orb_false_r.
    destruct (is_space c); simpl; split; congruence.
  - split; [discriminate|]. intros H. apply orb_false_iff in H as [_ H].
    destruct IH as [_ IH]. by specialize (IH H).
Qed.

Lemma strip_empty (s : string) : strip s = "" ↔ has_ink s = false.
Proof. unfold strip. by rewrite rstrip_empty, has_ink_lstrip. Qed.

Lemma format_repr_ink (neg : bool) (ds : string) (decpt : Z) :
  has_ink (format_repr neg ds decpt) = true.
Proof.
  unfold format_repr. rewrite has_ink_app. apply orb_true_iff. right.
  repeat case_match; rewrite !has_ink_app; simpl; by rewrite ?orb_true_r.
Qed.

(** what [str] writes for a float is never blank *)
Lemma py_str_ink (x : float) : has_ink (py_str x) = true.
Proof.
  unfold py_str. destruct (Prim2SF x) as [[]|[]| |s m e]; try done.
  repeat case_match; apply format_repr_ink.
Qed.

Lemma py_str_not_blank (x : float) : (strip (py_str x) =? "")%string = false.
Proof.
  apply String.eqb_neq. intros H. apply strip_empty in H. by rewrite py_str_ink in H.
Qed.

(** *** A date survives [format_date] and [parse_mmddyyyy] *)

Lemma digit_char_facts (k : Z) :
  0 ≤ k ≤ 9 →
  is_digit (digit_char k) = true ∧ digit_val (digit_char k) = k
  ∧ is_space (digit_char k) = false.
Proof.
  intros H.
  assert (H' : k = 0 ∨ k = 1 ∨ k = 2 ∨ k = 3 ∨ k = 4 ∨ k = 5 ∨ k = 6 ∨ k = 7 ∨ k = 8
               ∨ k = 9) by lia.
  repeat destruct H' as [->|H']; try subst k; done.
Qed.

Lemma digits_of_year (y : Z) :
  1000 ≤ y ≤ 9999 →
  digits y
  = String (digit_char (y / 10 / 10 / 10 mod 10))
      (String (digit_char (y / 10 / 10 mod 10))
         (String (digit_char (y / 10 mod 10)) (String (digit_char (y mod 10)) ""))).
Proof.
  intros Hy. unfold digits. cbn [digits_from].
  destruct (Z.ltb_spec y 10); [lia|].
  destruct (Z.ltb_spec (y / 10) 10); [Z.to_euclidean_division_equations; lia|].
  destruct (Z.ltb_spec (y / 10 / 10) 10); [Z.to_euclidean_division_equations; lia|].
  destruct (Z.ltb_spec (y / 10 / 10 / 10) 10); [done|].
  Z.to_euclidean_division_equations; lia.
Qed.

Lemma match_year_digits (y : Z) :
  1000 ≤ y ≤ 9999 → match_year (digits y) = Some (y, "").
Proof.
  intros Hy. rewrite (digits_of_year y Hy). unfold match_year.
  destruct (digit_char_facts (y / 10 / 10 / 10 mod 10)) as (-> & -> & _);
    [pose proof (Z.mod_pos_bound (y / 10 / 10 / 10) 10); lia|].
  destruct (digit_char_facts (y / 10 / 10 mod 10)) as (-> & -> & _);
    [pose proof (Z.mod_pos_bound (y / 10 / 10) 10); lia|].
  destruct (digit_char_facts (y / 10 mod 10)) as (-> & -> & _);
    [pose proof (Z.mod_pos_bound (y / 10) 10); lia|].
  destruct (digit_char_facts (y mod 10)) as (-> & -> & _);
    [pose proof (Z.mod_pos_bound y 10); lia|].
  simpl. do 2 f_equal. Z.to_euclidean_division_equations; lia.
Qed.

Lemma match_month_pad2 (m : Z) (rest : string) :
  1 ≤ m ≤ 12 → match_field month_alts (pad2 m +:+ "-" +:+ rest) = Some (m, rest).
Proof.
  intros Hm.
  assert (H : m = 1 ∨ m = 2 ∨ m = 3 ∨ m = 4 ∨ m = 5 ∨ m = 6 ∨ m = 7 ∨ m = 8 ∨ m = 9
              ∨ m = 10 ∨ m = 11 ∨ m = 12) by lia.
  repeat destruct H as [->|H]; try subst m; reflexivity.
Qed.

Lemma match_day_pad2 (d : Z) (rest : string) :
  1 ≤ d ≤ 31 → match_field day_alts (pad2 d +:+ "-" +:+ rest) = Some (d, rest).
Proof.
  intros Hd.
  assert (H : d = 1 ∨ d = 2 ∨ d = 3 ∨ d = 4 ∨ d = 5 ∨ d = 6 ∨ d = 7 ∨ d = 8 ∨ d = 9
              ∨ d = 10 ∨ d = 11 ∨ d = 12 ∨ d = 13 ∨ d = 14 ∨ d = 15 ∨ d = 16 ∨ d = 17
              ∨ d = 18 ∨ d = 19 ∨ d = 20 ∨ d = 21 ∨ d = 22 ∨ d = 23 ∨ d = 24 ∨ d = 25
              ∨ d = 26 ∨ d = 27 ∨ d = 28 ∨ d = 29 ∨ d = 30 ∨ d = 31) by lia.
  repeat destruct H as [->|H]; try subst d; reflexivity.
Qed.

Lemma valid_date_bounds (d : date) :
  valid_date d = true → 1 ≤ year d ≤ 9999 ∧ 1 ≤ month d ≤ 12 ∧ 1 ≤ day d ≤ 31.
Proof.
  unfold valid_date, days_in_month. intros H.
  repeat (apply andb_true_iff in H as [H ?]).
  repeat case_match; lia.
Qed.

Lemma parse_format_date (d : date) :
  valid_date d = true → 1000 ≤ year d → parse_mmddyyyy (format_date d) = Ok d.
Proof.
  intros Hv Hy. destruct (valid_date_bounds d Hv) as (Hy' & Hm & Hd).
  unfold parse_mmddyyyy, format_date, strptime_mdY, strftime_mdY.
  rewrite match_month_pad2 by done.
  rewrite match_day_pad2 by done.
  rewrite match_year_digits by lia.
  destruct d as [y m dd]. simpl in *. by rewrite Hv.
Qed.

(** *** The loops only append to the line items *)






(** *** One spoiled number *)

(** the file with cell [k] of row [i] replaced by [s] *)
Definition replace_cell (rows : list csv_row) (i k : nat) (s : string) : list csv_row :=
  alter (λ r, <[k := s]> r) i rows.



Lemma ends_table_line_row (l : EstimateLine.t) :
  ends_table (line_row l) = table_end (strip (EstimateLine.section l)).
Proof. done. Qed.









(** The demo quote with the rate of its second line item spoiled. *)
Example demo_spoiled_rate :
  decoded demo_date
    (replace_cell
       (document_rows "J0001" "quote" "Kitchen" "1 Main St" "Ann" demo_lines 0 625 625
          demo_allowances (format_date demo_date))
       10 5 "n/a")
  = (st_meta (scan [["DocType"; "quote"]; ["JobID"; "J0001"]; ["Project"; "Kitchen"];
                    ["Client"; "Ann"]; ["Address"; "1 Main St"]; ["Date"; "03-07-2024"]]
                0 (initial_state demo_date)),
     [EstimateLine.mk "" "Demo" "Labor" 1 500 "";
      EstimateLine.mk "Floor" "Tile" "Material" 10 0 "porcelain"],
     compute_totals demo_lines 0,
     demo_allowances).
Proof. vm_compute. reflexivity. Qed.

(** *** What the decoder reads from the rows of a document *)

Lemma rstrip_app (a b : string) :
  rstrip b = b → b ≠ "" → rstrip (a +:+ b) = a +:+ b ∧ a +:+ b ≠ "".
Proof.
  intros Hb Hne. induction a as [ | c a IH].
  - by change ("" +:+ b) with b.
  - change (String c a +:+ b) with (String c (a +:+ b)). simpl.
    destruct IH as [IH1 IH2]. rewrite IH1. split; [|done]. by destruct (a +:+ b).
Qed.

Lemma rstrip_digits (y : Z) :
  1000 ≤ y ≤ 9999 → rstrip (digits y) = digits y ∧ digits y ≠ "".
Proof.
  intros Hy. rewrite (digits_of_year y Hy). split; [|done].
  cbn [rstrip].
  destruct (digit_char_facts (y / 10 / 10 / 10 mod 10)) as (_ & _ & ->);
    [pose proof (Z.mod_pos_bound (y / 10 / 10 / 10) 10); lia|].
  destruct (digit_char_facts (y / 10 / 10 mod 10)) as (_ & _ & ->);
    [pose proof (Z.mod_pos_bound (y / 10 / 10) 10); lia|].
  destruct (digit_char_facts (y / 10 mod 10)) as (_ & _ & ->);
    [pose proof (Z.mod_pos_bound (y / 10) 10); lia|].
  destruct (digit_char_facts (y mod 10)) as (_ & _ & ->);
    [pose proof (Z.mod_pos_bound y 10); lia|].
  done.
Qed.

Lemma pad2_stripped (m : Z) (rest : string) :
  1 ≤ m ≤ 31 →
  lstrip (pad2 m +:+ rest) = pad2 m +:+ rest
  ∧ (rstrip rest = rest → rest ≠ "" → rstrip (pad2 m +:+ rest) = pad2 m +:+ rest).
Proof.
  intros Hm. split.
  - assert (H : m < 10 ∨ 10 ≤ m < 20 ∨ 20 ≤ m < 30 ∨ 30 ≤ m) by lia.
    unfold pad2.
    destruct (Z.ltb_spec m 10); [done|].
    assert (H' : m = 10 ∨ m = 11 ∨ m = 12 ∨ m = 13 ∨ m = 14 ∨ m = 15 ∨ m = 16 ∨ m = 17
                 ∨ m = 18 ∨ m = 19 ∨ m = 20 ∨ m = 21 ∨ m = 22 ∨ m = 23 ∨ m = 24 ∨ m = 25
                 ∨ m = 26 ∨ m = 27 ∨ m = 28 ∨ m = 29 ∨ m = 30 ∨ m = 31) by lia.
    repeat destruct H' as [->|H']; try subst m; reflexivity.
  - intros H1 H2. by apply rstrip_app.
Qed.

Lemma strip_format_date (d : date) :
  valid_date d = true → 1000 ≤ year d → strip (format_date d) = format_date d.
Proof.
  intros Hv Hy. destruct (valid_date_bounds d Hv) as (Hy' & Hm & Hd).
  destruct (rstrip_digits (year d) ltac:(lia)) as [Hr Hne].
  unfold strip, format_date, strftime_mdY.
  rewrite (proj1 (pad2_stripped (month d) _ ltac:(lia))).
  destruct (rstrip_app "-" (digits (year d)) Hr Hne) as [H1 H1'].
  destruct (rstrip_app (pad2 (day d)) _ H1 H1') as [H2 H2'].
  destruct (rstrip_app "-" _ H2 H2') as [H3 H3'].
  by destruct (rstrip_app (pad2 (month d)) _ H3 H3') as [H4 _].
Qed.

(** the state after the seven labelled rows *)
Definition after_header (job_id doc_type project_name project_address client_name
    date_str : string) (receipts_total : float) (st : state) : state :=
  let st := set_meta st "doc_type" (VStr (strip doc_type)) in
  let st := set_meta st "job_id" (VStr (strip job_id)) in
  let st := set_meta st "project_name" (VStr (strip project_name)) in
  let st := set_meta st "client_name" (VStr (strip client_name)) in
  let st := set_meta st "project_address" (VStr (strip project_address)) in
  let st := match date_of ["Date"; date_str] with
            | Some d => set_meta st "doc_date" (VDate d)
            | None => st
            end in
  set_total st "receipts_total" (float_or_zero (py_str receipts_total)).

Lemma scan_header_rows (job_id doc_type project_name project_address client_name
    date_str : string) (receipts_total : float) (rest : list csv_row) (st : state) :
  scan (header_rows job_id doc_type project_name project_address client_name date_str
          receipts_total ++ rest) 0 st
  = scan rest 0
      (after_header job_id doc_type project_name project_address client_name date_str
         receipts_total st).
Proof. reflexivity. Qed.

(** an allowance whose description does not end the allowances block *)
Definition inside_block (a : OwnerAllowance.t) : Prop :=
  strip (OwnerAllowance.description a) ≠ "OwnerAllowancesTotal".

Lemma block_of_allowance_rows (allowances : list OwnerAllowance.t) (x : float) :
  Forall inside_block allowances →
  block_len ((allowance_row <$> allowances)
             ++ [["OwnerAllowancesTotal"; ""; ""; ""; py_str x]])
  = length allowances.
Proof.
  intros H. induction H as [|a allowances Ha _ IH]; [done|].
  rewrite fmap_cons. simpl.
  change (row_key (allowance_row a)) with (strip (OwnerAllowance.description a)).
  apply String.eqb_neq in Ha. by rewrite Ha, IH.
Qed.

Lemma scan_past_end (rows : list csv_row) (skip : nat) (st : state) :
  (length rows <= skip)%nat → scan rows skip st = st.
Proof. intros H. by rewrite scan_skip, drop_ge. Qed.

Lemma scan_total_rows (subtotal grand_total : float) (allowances : list OwnerAllowance.t)
    (st : state) :
  Forall inside_block allowances →
  ∃ allowances',
    scan ([] :: total_row "Subtotal" subtotal :: total_row "GrandTotal" grand_total
          :: allowance_rows allowances) 0 st
    = set_allowances
        (set_total (set_total st "subtotal" (float_or_zero (py_str subtotal)))
           "grand_total" (float_or_zero (py_str grand_total)))
        allowances'.
Proof.
  intros Hsafe.
  set (st' := set_total (set_total st "subtotal" (float_or_zero (py_str subtotal)))
                "grand_total" (float_or_zero (py_str grand_total))).
  assert (E : scan ([] :: total_row "Subtotal" subtotal :: total_row "GrandTotal" grand_total
                    :: allowance_rows allowances) 0 st
              = scan (allowance_rows allowances) 0 st') by reflexivity.
  rewrite E. destruct allowances as [|a allowances].
  - exists (st_allowances st'). by destruct st'.
  - eexists. unfold allowance_rows.
    set (block := (allowance_row <$> a :: allowances)
                  ++ [["OwnerAllowancesTotal"; ""; ""; "";
                       py_str (fold_left add (OwnerAllowance.total <$> a :: allowances)
                                 0%float)]]).
    assert (E' : scan ([[]; [allowances_marker]; allowance_header] ++ block) 0 st'
                 = scan (allowance_header :: block) (S (S (block_len block)))
                     (set_allowances st' (st_allowances st' ++ block_allowances block)))
      by reflexivity.
    rewrite E'. apply scan_past_end.
    subst block. rewrite (block_of_allowance_rows _ _ Hsafe).
    simpl. rewrite length_app, length_fmap. simpl. lia.
Qed.

(** a line item that is read back as it is: no text with blanks around it, a
    section that does not end the table, numbers that [str] and [float]
    reproduce *)
Definition clean_line (l : EstimateLine.t) : Prop :=
  strip (EstimateLine.section l) = EstimateLine.section l
  ∧ strip (EstimateLine.description l) = EstimateLine.description l
  ∧ strip (EstimateLine.detail l) = EstimateLine.detail l
  ∧ strip (EstimateLine.worker_type l) = EstimateLine.worker_type l
  ∧ table_end (EstimateLine.section l) = false
  ∧ py_float (py_str (EstimateLine.hours l)) = Ok (EstimateLine.hours l)
  ∧ py_float (py_str (EstimateLine.rate l)) = Ok (EstimateLine.rate l).

Lemma float_or_zero_str (x : float) : py_float (py_str x) = Ok x → float_or_zero (py_str x) = x.
Proof. unfold float_or_zero. by intros ->. Qed.

Lemma line_of_line_row (l : EstimateLine.t) : clean_line l → line_of_row (line_row l) = l.
Proof.
  intros (H1 & H2 & H3 & H4 & _ & H5 & H6).
  unfold line_of_row, text_of, number_of, line_row. simpl.
  rewrite !py_str_not_blank, H1, H2, H3, H4.
  rewrite (float_or_zero_str _ H5), (float_or_zero_str _ H6). by destruct l.
Qed.

Lemma table_of_line_rows (lines : list EstimateLine.t) (rest : list csv_row) :
  Forall clean_line lines →
  table_lines ((line_row <$> lines) ++ [] :: rest) = lines
  ∧ table_len ((line_row <$> lines) ++ [] :: rest) = length lines.
Proof.
  intros H. induction H as [|l lines Hl _ [IH1 IH2]]; [done|].
  rewrite fmap_cons. simpl.
  change (row_key (line_row l)) with (strip (EstimateLine.section l)).
  rewrite !py_str_not_blank, !andb_false_r, IH1, IH2, (line_of_line_row l Hl).
  destruct Hl as (-> & _ & _ & _ & -> & _). done.
Qed.

(** ** Documents *)

(** A document, as the specification has it: the header fields, the line
    items, the three totals and the allowances that [save_document_csv] is
    given. *)
Module Document.
Record t := mk {
  doc_type : string;
  job_id : string;
  project_name : string;
  client_name : string;
  project_address : string;
  doc_date : date;
  lines : list EstimateLine.t;
  subtotal : float;
  receipts_total : float;
  grand_total : float;
  allowances : list OwnerAllowance.t
}.

(** the [totals] dictionary of the document *)
Definition totals (d : t) : gmap string float :=
  <["grand_total" := grand_total d]>
    (<["receipts_total" := receipts_total d]>
      (<["subtotal" := subtotal d]> ∅)).

(** the [meta] dictionary of the document *)
Definition meta (d : t) : gmap string value :=
  <["doc_date" := VDate (doc_date d)]>
    (<["project_address" := VStr (project_address d)]>
      (<["client_name" := VStr (client_name d)]>
        (<["project_name" := VStr (project_name d)]>
          (<["job_id" := VStr (job_id d)]>
            (<["doc_type" := VStr (doc_type d)]> ∅))))).

Definition save (fs : filesystem) (job_dir : string) (d : t) : filesystem * result string :=
  save_document_csv fs job_dir (job_id d) (doc_type d) (project_name d) (project_address d)
    (client_name d) (lines d) (totals d) (allowances d) (doc_date d).

(** A document that is read back as it is: text without blanks around it, a
    date with a year of four digits, line items that stay in the table,
    numbers that [str] and [float] reproduce, and no allowance whose
    description ends the allowances block. *)
Definition clean (d : t) : Prop :=
  strip (doc_type d) = doc_type d
  ∧ strip (job_id d) = job_id d
  ∧ strip (project_name d) = project_name d
  ∧ strip (client_name d) = client_name d
  ∧ strip (project_address d) = project_address d
  ∧ valid_date (doc_date d) = true
  ∧ 1000 ≤ year (doc_date d)
  ∧ Forall clean_line (lines d)
  ∧ py_float (py_str (subtotal d)) = Ok (subtotal d)
  ∧ py_float (py_str (receipts_total d)) = Ok (receipts_total d)
  ∧ py_float (py_str (grand_total d)) = Ok (grand_total d)
  ∧ Forall inside_block (allowances d).
End Document.

Lemma scan_blank_row (rest : list csv_row) (st : state) :
  scan ([] :: rest) 0 st = scan rest 0 st.
Proof. done. Qed.

Lemma scan_table_header (rest : list csv_row) (st : state) :
  scan (table_header :: rest) 0 st
  = scan (drop (table_len rest) rest) 0 (set_lines st (st_lines st ++ table_lines rest)).
Proof. by rewrite scan_cons, (outer_step_section table_header rest st eq_refl). Qed.

Lemma after_header_clean (today : date) (d : Document.t) :
  Document.clean d →
  after_header (Document.job_id d) (Document.doc_type d) (Document.project_name d)
    (Document.project_address d) (Document.client_name d)
    (format_date (Document.doc_date d)) (Document.receipts_total d) (initial_state today)
  = mkstate (Document.meta d) []
      (<["receipts_total" := Document.receipts_total d]> zeroed_totals) [].
Proof.
  intros (H1 & H2 & H3 & H4 & H5 & Hv & Hy & _ & _ & Hr & _).
  unfold after_header, date_of, text_of. simpl.
  rewrite H1, H2, H3, H4, H5, (strip_format_date _ Hv Hy), (parse_format_date _ Hv Hy).
  rewrite (float_or_zero_str _ Hr).
  unfold set_total, set_meta, initial_state, Document.meta, zeroed_totals. simpl.
  reflexivity.
Qed.

Lemma decoded_document (today : date) (d : Document.t) :
  Document.clean d →
  ∃ allowances',
    decoded today
      (document_rows (Document.job_id d) (Document.doc_type d) (Document.project_name d)
         (Document.project_address d) (Document.client_name d) (Document.lines d)
         (Document.receipts_total d) (Document.subtotal d) (Document.grand_total d)
         (Document.allowances d) (format_date (Document.doc_date d)))
    = (Document.meta d, Document.lines d, Document.totals d, allowances').
Proof.
  intros Hclean.
  pose proof Hclean as (_ & _ & _ & _ & _ & _ & _ & Hlines & Hs & _ & Hg & Hals).
  unfold decoded, document_rows.
  rewrite scan_header_rows, (after_header_clean today d Hclean).
  cbn [app]. rewrite scan_blank_row, scan_table_header.
  destruct (table_of_line_rows (Document.lines d)
              (total_row "Subtotal" (Document.subtotal d)
               :: total_row "GrandTotal" (Document.grand_total d)
               :: allowance_rows (Document.allowances d))
              Hlines) as [Hl Hn].
  rewrite Hl, Hn, drop_app_length' by (by rewrite length_fmap).
  match goal with
  | |- context [scan ([] :: _) 0 ?st'] =>
      destruct (scan_total_rows (Document.subtotal d) (Document.grand_total d)
                  (Document.allowances d) st' Hals) as [allowances' Hscan]
  end.
  rewrite Hscan. exists allowances'. simpl.
  rewrite (float_or_zero_str _ Hs), (float_or_zero_str _ Hg).
  reflexivity.
Qed.

(** a quote as the tool builds it, with a section that the user named
    [Subtotal] *)
Definition lost_document : Document.t :=
  Document.mk "quote" "J0001" "Kitchen" "Ann" "1 Main St" demo_date
    [EstimateLine.mk "Subtotal" "Demo" "Labor" 1 500 ""] 500 0 500 [].

(** C1, as stated, fails: the row of a line item whose section is [Subtotal]
    ends the table, and the line item is not read back. *)
Lemma section_named_subtotal_is_lost :
  ¬ (∃ path meta totals allowances,
       snd (Document.save ∅ "jobs" lost_document) = Ok path
       ∧ load_quote_from_csv demo_date (fst (Document.save ∅ "jobs" lost_document)) path
         = ([], Ok (meta, Document.lines lost_document, totals, allowances))).
Proof.
  intros (path & meta & totals & allowances & H1 & H2).
  vm_compute in H1. injection H1 as <-.
  assert (E : match snd (load_quote_from_csv demo_date
                           (fst (Document.save ∅ "jobs" lost_document))
                           "jobs/J0001_quote_03-07-2024.csv") with
              | Ok (_, lines, _, _) => length lines
              | Raise _ => 0%nat
              end = 1%nat) by (by rewrite H2).
  vm_compute in E. discriminate.
Qed.

(** What is read back from it: no line item at all. *)
Example lost_document_decoded :
  ∃ meta totals,
    load_quote_from_csv demo_date (fst (Document.save ∅ "jobs" lost_document))
      "jobs/J0001_quote_03-07-2024.csv"
    = ([], Ok (meta, [], totals, [])).
Proof. do 2 eexists. vm_compute. reflexivity. Qed.

(** *** Cells that are read back as they were written *)

(** a text that the read leaves as it is: no carriage return in it, and no
    more characters than the reader accepts *)
Definition read_as_written (s : string) : Prop :=
  universal_newlines s = s ∧ Z.of_nat (String.length s) ≤ field_size_limit.

Fixpoint no_cr (s : string) : bool :=
  match s with
  | EmptyString => true
  | String c s' => negb (Ascii.eqb c CR) && no_cr s'
  end.

Lemma universal_newlines_no_cr (s : string) : no_cr s = true → universal_newlines s = s.
Proof.
  induction s as [|c s IH]; [done|]. simpl.
  intros [Hc Hs]%andb_true_iff. apply negb_true_iff in Hc. rewrite Hc. by rewrite IH.
Qed.

(** a text without carriage return of at most [n] characters *)
Definition small (n : Z) (s : string) : Prop :=
  no_cr s = true ∧ Z.of_nat (String.length s) ≤ n.

Lemma small_read_as_written (n : Z) (s : string) :
  small n s → n ≤ field_size_limit → read_as_written s.
Proof.
  intros [H1 H2] Hn. split; [by apply universal_newlines_no_cr|lia].
Qed.

Lemma small_app (n m : Z) (a b : string) : small n a → small m b → small (n + m) (a +:+ b).
Proof.
  intros [Ha1 Ha2] [Hb1 Hb2]. revert n Ha1 Ha2. induction a as [|c a IH]; intros n Ha1 Ha2.
  - change ("" +:+ b) with b. simpl in Ha2. split; [done|lia].
  - change (String c a +:+ b) with (String c (a +:+ b)).
    simpl in Ha1. apply andb_true_iff in Ha1 as [Hc Ha1].
    destruct (IH (n - 1) Ha1 ltac:(simpl in Ha2; lia)) as [H1 H2].
    split; simpl; [by rewrite Hc, H1|lia].
Qed.

Lemma small_le (n m : Z) (s : string) : small n s → n ≤ m → small m s.
Proof. intros [H1 H2] H. split; [done|lia]. Qed.

Lemma small_substring (n : Z) (i k : nat) (s : string) :
  small n s → small n (substring i k s).
Proof.
  revert n i k. induction s as [|c s IH]; intros n i k [H1 H2].
  - by destruct i, k.
  - simpl in H1. apply andb_true_iff in H1 as [Hc H1]. simpl in H2.
    destruct i as [|i].
    + destruct k as [|k]; simpl.
      * split; [done|simpl; lia].
      * destruct (IH (n - 1) 0%nat k) as [H3 H4]; [split; [done|lia]|].
        split; simpl; [by rewrite Hc, H3|lia].
    + simpl. apply (small_le (n - 1)); [|lia]. apply IH. split; [done|lia].
Qed.

Lemma small_zeros (k : nat) : small (Z.of_nat k) (zeros k).
Proof.
  induction k as [|k [IH1 IH2]]; [done|]. split; simpl; [done|lia].
Qed.

Lemma digit_char_no_cr (c : Z) : Ascii.eqb (digit_char (c mod 10)) CR = false.
Proof.
  pose proof (Z.mod_pos_bound c 10 ltac:(lia)) as H.
  assert (H' : c mod 10 = 0 ∨ c mod 10 = 1 ∨ c mod 10 = 2 ∨ c mod 10 = 3 ∨ c mod 10 = 4
               ∨ c mod 10 = 5 ∨ c mod 10 = 6 ∨ c mod 10 = 7 ∨ c mod 10 = 8 ∨ c mod 10 = 9)
    by lia.
  repeat destruct H' as [->|H']; try rewrite H'; done.
Qed.

Lemma small_digits_from (fuel : nat) (c n : Z) (acc : string) :
  small n acc → small (n + Z.of_nat fuel) (digits_from fuel c acc).
Proof.
  revert c n acc. induction fuel as [|fuel IH]; intros c n acc Hacc.
  - simpl. apply (small_le n); [done|lia].
  - cbn [digits_from].
    assert (H : small (n + 1) (String (digit_char (c mod 10)) acc)).
    { destruct Hacc as [H1 H2]. split; simpl; [by rewrite digit_char_no_cr|lia]. }
    destruct (c <? 10).
    + apply (small_le (n + 1)); [done|lia].
    + apply (small_le (n + 1 + Z.of_nat fuel)); [by apply IH|lia].
Qed.

Lemma small_digits (c : Z) : small 20 (digits c).
Proof. apply (small_digits_from 20 c 0 ""). done. Qed.

Lemma small_pad2 (c : Z) : small 21 (pad2 c).
Proof.
  unfold pad2. destruct (c <? 10).
  - destruct (small_digits c) as [H1 H2]. split; simpl; [done|lia].
  - apply (small_le 20); [apply small_digits|lia].
Qed.

Lemma small_format_repr (neg : bool) (c : Z) (decpt : Z) :
  small 100 (format_repr neg (digits c) decpt).
Proof.
  pose proof (small_digits c) as Hds. unfold format_repr.
  set (ds := digits c) in *. set (n := Z.of_nat (String.length ds)).
  assert (Hn : n ≤ 20) by apply Hds.
  apply (small_app 1 99); [by destruct neg|].
  destruct ((decpt <=? -4) || (16 <? decpt)) eqn:E.
  - apply (small_app 20 79); [by apply small_substring|].
    apply (small_app 21 58).
    { destruct (n =? 1); [done|]. apply (small_app 1 20); [done|by apply small_substring]. }
    apply (small_app 1 57); [done|].
    apply (small_app 1 56); [by case_match|].
    apply (small_le 21); [apply small_pad2|lia].
  - apply orb_false_iff in E as [E1 E2]. apply Z.leb_gt in E1. apply Z.ltb_ge in E2.
    destruct (Z.leb_spec decpt 0).
    + apply (small_app 2 97); [done|].
      apply (small_app 3 94); [|apply (small_le 20); [done|lia]].
      apply (small_le (Z.of_nat (Z.to_nat (- decpt)))); [apply small_zeros|lia].
    + destruct (Z.leb_spec n decpt).
      * apply (small_app 20 79); [done|].
        apply (small_app 16 63); [|done].
        apply (small_le (Z.of_nat (Z.to_nat (decpt - n)))); [apply small_zeros|lia].
      * apply (small_app 20 79); [by apply small_substring|].
        apply (small_app 1 78); [done|].
        apply (small_le 20); [by apply small_substring|lia].
Qed.

(** what [str] writes for a float is read back as it was written *)
Lemma small_py_str (x : float) : small 100 (py_str x).
Proof.
  unfold py_str. destruct (Prim2SF x) as [[]|[]| |s m e]; try done.
  repeat case_match; apply small_format_repr.
Qed.

Lemma py_str_read_as_written (x : float) : read_as_written (py_str x).
Proof. apply (small_read_as_written 100); [apply small_py_str|done]. Qed.

Lemma format_date_read_as_written (d : date) : read_as_written (format_date d).
Proof.
  apply (small_read_as_written 64); [|done].
  unfold format_date, strftime_mdY.
  apply (small_app 21 43); [apply small_pad2|].
  apply (small_app 1 42); [done|].
  apply (small_app 21 21); [apply small_pad2|].
  apply (small_app 1 20); [done|apply small_digits].
Qed.

Lemma read_rows_as_written (rows : list csv_row) :
  Forall (Forall read_as_written) rows → read_rows (Utf8 rows) = Returned rows.
Proof.
  intros H. unfold read_rows.
  assert (E : (λ r : csv_row, universal_newlines <$> r) <$> rows = rows).
  { induction H as [|r rows Hr _ IH]; [done|]. rewrite fmap_cons, IH. f_equal.
    induction Hr as [|c r [Hc _] _ IHr]; [done|]. by rewrite fmap_cons, Hc, IHr. }
  rewrite E.
  assert (L : forallb (forallb (λ c, Z.of_nat (String.length c) <=? field_size_limit)) rows
              = true).
  { clear E. induction H as [|r rows Hr _ IH]; [done|]. simpl. rewrite IH, andb_true_r.
    induction Hr as [|c r [_ Hc] _ IHr]; [done|]. simpl. rewrite IHr, andb_true_r.
    by apply Z.leb_le. }
  by rewrite L.
Qed.

(** a document whose file is read back as it was written: no text field holds
    a carriage return, and none has more than 131072 characters *)
Definition text_read_as_written (d : Document.t) : Prop :=
  read_as_written (Document.doc_type d)
  ∧ read_as_written (Document.job_id d)
  ∧ read_as_written (Document.project_name d)
  ∧ read_as_written (Document.client_name d)
  ∧ read_as_written (Document.project_address d)
  ∧ Forall (λ l, read_as_written (EstimateLine.section l)
                 ∧ read_as_written (EstimateLine.description l)
                 ∧ read_as_written (EstimateLine.detail l)
                 ∧ read_as_written (EstimateLine.worker_type l))
      (Document.lines d)
  ∧ Forall (λ a, read_as_written (OwnerAllowance.description a)) (Document.allowances d).

Ltac literal_cell := split; [reflexivity | unfold field_size_limit; simpl; lia].

Ltac cells :=
  repeat (apply Forall_cons_2;
          [first [assumption | apply py_str_read_as_written
                 | apply format_date_read_as_written | literal_cell]|]);
  apply Forall_nil_2.

Lemma document_rows_read_as_written (d : Document.t) :
  text_read_as_written d →
  Forall (Forall read_as_written)
    (document_rows (Document.job_id d) (Document.doc_type d) (Document.project_name d)
       (Document.project_address d) (Document.client_name d) (Document.lines d)
       (Document.receipts_total d) (Document.subtotal d) (Document.grand_total d)
       (Document.allowances d) (format_date (Document.doc_date d))).
Proof.
  intros (H1 & H2 & H3 & H4 & H5 & Hlines & Hals).
  unfold document_rows, header_rows.
  apply Forall_app_2; [repeat (apply Forall_cons_2; [cells|]); apply Forall_nil_2|].
  apply Forall_app_2; [repeat (apply Forall_cons_2; [cells|]); apply Forall_nil_2|].
  apply Forall_app_2.
  { apply Forall_fmap. eapply Forall_impl; [exact Hlines|].
    intros l (Ha & Hb & Hc & Hd). unfold line_row. simpl. cells. }
  apply Forall_app_2;
    [unfold total_row; repeat (apply Forall_cons_2; [cells|]); apply Forall_nil_2|].
  unfold allowance_rows. destruct (Document.allowances d) as [|a als] eqn:E; [done|].
  rewrite <- E in *. clear E.
  apply Forall_app_2; [repeat (apply Forall_cons_2; [cells|]); apply Forall_nil_2|].
  apply Forall_app_2.
  { apply Forall_fmap. eapply Forall_impl; [exact Hals|].
    intros a' Ha. unfold allowance_row. simpl. cells. }
  repeat (apply Forall_cons_2; [cells|]); apply Forall_nil_2.
Qed.

Lemma saved_document_is_read (fs : filesystem) (path : string) (d : Document.t) :
  text_read_as_written d →
  let rows :=
    document_rows (Document.job_id d) (Document.doc_type d) (Document.project_name d)
      (Document.project_address d) (Document.client_name d) (Document.lines d)
      (Document.receipts_total d) (Document.subtotal d) (Document.grand_total d)
      (Document.allowances d) (format_date (Document.doc_date d)) in
  ∀ today,
    load_quote_from_csv_on_disk today (Utf8 <$> <[path := rows]> fs) path
    = ([], Returned (decoded today rows)).
Proof.
  intros Htext rows today.
  apply (load_on_disk_read today _ path (Utf8 rows) rows).
  - by rewrite lookup_fmap, lookup_insert_eq.
  - by apply read_rows_as_written, document_rows_read_as_written.
Qed.

(** C1, amended.  A clean document whose text is read back as written is read
    back as it was saved: the line items, the three totals and the metadata
    that the decoder returns for the file that the encoder wrote are those of
    the document.  Clean means: no text field has blanks around it; the date
    exists and its year has four digits; no line item has a section
    [Subtotal], [GrandTotal] or the marker; no allowance is described as
    [OwnerAllowancesTotal]; and [float(str(x))] is [x] for each number.  Read
    back as written means: no text field holds a carriage return, which the
    read would turn into a line feed, and none has more than 131072
    characters, at which the read would raise. *)
Theorem clean_document_round_trip (today : date) (fs : filesystem) (job_dir : string)
    (d : Document.t) :
  Document.clean d →
  text_read_as_written d →
  ∃ path rows allowances',
    Document.save fs job_dir d = (<[path := rows]> fs, Ok path)
    ∧ load_quote_from_csv_on_disk today (Utf8 <$> <[path := rows]> fs) path
      = ([], Returned (Document.meta d, Document.lines d, Document.totals d, allowances')).
Proof.
  intros Hclean Htext. destruct (decoded_document today d Hclean) as [allowances' Hdec].
  do 2 eexists. exists allowances'. split.
  - unfold Document.save.
    by apply (save_document_rows fs job_dir _ _ _ _ _ _ _ _ _
                (Document.subtotal d) (Document.grand_total d)).
  - rewrite (saved_document_is_read fs _ d Htext today). by rewrite <- Hdec.
Qed.

Definition demo_document : Document.t :=
  Document.mk "quote" "J0001" "Kitchen" "Ann" "1 Main St" demo_date demo_lines 625 0 625
    demo_allowances.

Lemma demo_document_read_as_written : text_read_as_written demo_document.
Proof.
  unfold text_read_as_written, demo_document, demo_lines, demo_allowances. simpl.
  repeat split; try (unfold field_size_limit; simpl; lia);
    repeat (apply Forall_cons_2; [repeat split; unfold field_size_limit; simpl; lia|]);
    apply Forall_nil_2.
Qed.

Lemma clean_document_round_trip_witness :
  ∃ path rows allowances',
    Document.save ∅ "jobs" demo_document = (<[path := rows]> ∅, Ok path)
    ∧ load_quote_from_csv_on_disk demo_date (Utf8 <$> <[path := rows]> ∅) path
      = ([], Returned (Document.meta demo_document, Document.lines demo_document,
                       Document.totals demo_document, allowances')).
Proof.
  apply (clean_document_round_trip demo_date ∅ "jobs" demo_document).
  - unfold Document.clean.
    split; [vm_compute; reflexivity|].
    split; [vm_compute; reflexivity|].
    split; [vm_compute; reflexivity|].
    split; [vm_compute; reflexivity|].
    split; [vm_compute; reflexivity|].
    split; [vm_compute; reflexivity|].
    split; [simpl; lia|].
    split.
    { unfold demo_document, demo_lines, Document.lines.
      repeat (apply Forall_cons_2;
              [unfold clean_line; repeat split; vm_compute; reflexivity|]).
      apply Forall_nil_2. }
    split; [vm_compute; reflexivity|].
    split; [vm_compute; reflexivity|].
    split; [vm_compute; reflexivity|].
    unfold demo_document, demo_allowances, Document.allowances.
    repeat (apply Forall_cons_2; [vm_compute; discriminate|]).
    apply Forall_nil_2.
  - unfold text_read_as_written, demo_document, demo_lines, demo_allowances. simpl.
    repeat split; try (unfold field_size_limit; simpl; lia);
      repeat (apply Forall_cons_2; [repeat split; unfold field_size_limit; simpl; lia|]);
      apply Forall_nil_2.
Defined.

(** * Properties of the subtotal *)

(** five line items: a large amount, a unit amount, and three amounts below
    the rounding step of the unit *)
Definition uneven_lines : list EstimateLine.t :=
  [EstimateLine.mk "" "Tower" "Labor" 1 9007199254740992 "";
   EstimateLine.mk "" "Bolt" "Material" 1 1 "";
   EstimateLine.mk "" "Dust" "Material" 1 0x1p-54 "";
   EstimateLine.mk "" "Dust" "Material" 1 0x1p-54 "";
   EstimateLine.mk "" "Dust" "Material" 1 0x1p-54 ""].

(** C2, as stated, fails: the same line items in the reverse order have
    another subtotal, [9007199254740994.0] for [9007199254740992.0].  (Adding
    with a running compensation, as later versions of [sum] do, gives these
    two values as well.) *)
Lemma subtotal_depends_on_order :
  uneven_lines ≡ₚ reverse uneven_lines
  ∧ compute_totals uneven_lines 0 !! "subtotal" = Some 9007199254740992%float
  ∧ compute_totals (reverse uneven_lines) 0 !! "subtotal" = Some 9007199254740994%float
  ∧ compute_totals uneven_lines 0 !! "subtotal"
    ≠ compute_totals (reverse uneven_lines) 0 !! "subtotal".
Proof.
  split; [by rewrite reverse_Permutation|].
  split; [vm_compute; reflexivity|].
  split; [vm_compute; reflexivity|].
  vm_compute. discriminate.
Qed.

Lemma py_sum_running (xs : list float) (acc : float) :
  fold_left PrimFloat.add xs acc
  = fold_left (λ acc x, (acc + x)%float) xs acc.
Proof. done. Qed.

Lemma subtotal_entry (lines : list EstimateLine.t) (receipts_total : float) :
  compute_totals lines receipts_total !! "subtotal"
  = Some (fold_left (λ acc l, (acc + EstimateLine.hours l * EstimateLine.rate l)%float)
            lines 0%float).
Proof.
  unfold compute_totals. simplify_map_eq. f_equal.
  unfold py_sum. generalize 0%float.
  induction lines as [|l lines IH]; intros acc; [done|]. simpl. apply IH.
Qed.

(** C2, amended.  The subtotal is the floating-point sum of quantity times
    rate over the line items, accumulated from [0.0] in the order of the
    list. *)
Theorem subtotal_is_running_sum (lines : list EstimateLine.t) (receipts_total : float) :
  compute_totals lines receipts_total !! "subtotal"
  = Some (fold_left (λ acc l, (acc + EstimateLine.hours l * EstimateLine.rate l)%float)
            lines 0%float).
Proof. apply subtotal_entry. Qed.
(** * Further properties of the document store *)

(** ** Dates *)

(** X1.  A date that exists and whose year has four digits is read back by
    [parse_mmddyyyy] from the text that [format_date] gives for it. *)
Theorem format_date_is_parsed_back (d : date) :
  valid_date d = true → 1000 ≤ year d → parse_mmddyyyy (format_date d) = Ok d.
Proof. apply parse_format_date. Qed.

Lemma format_date_is_parsed_back_witness :
  parse_mmddyyyy (format_date (mkdate 2024 2 29)) = Ok (mkdate 2024 2 29).
Proof. apply format_date_is_parsed_back; [reflexivity | simpl; lia]. Defined.

(** ** A document without its totals *)

(** the rows written before the [Subtotal] row *)
Definition rows_before_totals (job_id doc_type project_name project_address client_name : string)
    (lines : list EstimateLine.t) (receipts_total : float) (date_str : string)
  : list csv_row :=
  header_rows job_id doc_type project_name project_address client_name date_str receipts_total
  ++ [[]; table_header] ++ (line_row <$> lines) ++ [[]].

Lemma write_document_no_subtotal
    (job_id doc_type project_name project_address client_name : string)
    (lines : list EstimateLine.t) (totals : gmap string float)
    (allowances : list OwnerAllowance.t) (date_str : string) :
  totals !! "subtotal" = None →
  write_document job_id doc_type project_name project_address client_name lines totals
    allowances date_str
  = (rows_before_totals job_id doc_type project_name project_address client_name lines
       (dict_get totals "receipts_total" 0%float) date_str,
     Raise KeyError).
Proof.
  intros Hs. unfold write_document, dict_getitem. rewrite Hs, write_lines.
  unfold rows_before_totals, writerow. simpl. by rewrite <- ?app_assoc.
Qed.

(** X2.  When the totals hold no subtotal, [save_document_csv] raises
    [KeyError]; by then the file has been created or replaced, and it holds
    the labelled rows, the table header and the line items, but no totals and
    no allowances. *)
Theorem save_without_subtotal_raises (fs : filesystem)
    (job_dir job_id doc_type project_name project_address client_name : string)
    (lines : list EstimateLine.t) (totals : gmap string float)
    (allowances : list OwnerAllowance.t) (doc_date : date) :
  totals !! "subtotal" = None →
  let path :=
    os_path_join job_dir (job_id +:+ "_" +:+ doc_type +:+ "_" +:+ format_date doc_date +:+ ".csv") in
  save_document_csv fs job_dir job_id doc_type project_name project_address client_name
    lines totals allowances doc_date
  = (<[path :=
         rows_before_totals job_id doc_type project_name project_address client_name lines
           (dict_get totals "receipts_total" 0%float) (format_date doc_date)]> fs,
     Raise KeyError).
Proof.
  intros Hs path. unfold save_document_csv.
  by rewrite (write_document_no_subtotal _ _ _ _ _ _ _ _ _ Hs).
Qed.

Lemma save_without_subtotal_raises_witness :
  save_document_csv ∅ "jobs" "J0001" "quote" "Kitchen" "1 Main St" "Ann" demo_lines ∅
    demo_allowances demo_date
  = (<["jobs/J0001_quote_03-07-2024.csv" :=
         rows_before_totals "J0001" "quote" "Kitchen" "1 Main St" "Ann" demo_lines 0
           "03-07-2024"]> ∅,
     Raise KeyError).
Proof.
  exact (save_without_subtotal_raises ∅ "jobs" "J0001" "quote" "Kitchen" "1 Main St" "Ann"
           demo_lines ∅ demo_allowances demo_date eq_refl).
Defined.

(** ** Allowances *)

(** an allowance that is read back as it is *)
Definition clean_allowance (a : OwnerAllowance.t) : Prop :=
  strip (OwnerAllowance.description a) = OwnerAllowance.description a
  ∧ OwnerAllowance.description a ≠ "OwnerAllowancesTotal"
  ∧ py_float (py_str (OwnerAllowance.quantity a)) = Ok (OwnerAllowance.quantity a)
  ∧ py_float (py_str (OwnerAllowance.unit_cost a)) = Ok (OwnerAllowance.unit_cost a).

Lemma allowance_of_allowance_row (a : OwnerAllowance.t) :
  clean_allowance a → allowance_of_row (allowance_row a) = a.
Proof.
  intros (H1 & _ & H2 & H3).
  unfold allowance_of_row, text_of, number_of, allowance_row. simpl.
  rewrite !py_str_not_blank, H1, (float_or_zero_str _ H2), (float_or_zero_str _ H3).
  by destruct a.
Qed.

Lemma block_of_clean_rows (allowances : list OwnerAllowance.t) (x : float) :
  Forall clean_allowance allowances →
  block_allowances ((allowance_row <$> allowances)
                    ++ [["OwnerAllowancesTotal"; ""; ""; ""; py_str x]])
  = allowances
  ∧ block_len ((allowance_row <$> allowances)
               ++ [["OwnerAllowancesTotal"; ""; ""; ""; py_str x]])
    = length allowances.
Proof.
  intros H. induction H as [|a allowances Ha _ [IH1 IH2]]; [done|].
  rewrite fmap_cons. simpl.
  change (row_key (allowance_row a)) with (strip (OwnerAllowance.description a)).
  rewrite (allowance_of_allowance_row a Ha), IH1, IH2.
  destruct Ha as (-> & Ha & _). apply String.eqb_neq in Ha. by rewrite Ha.
Qed.

Lemma scan_clean_allowances (subtotal grand_total : float)
    (allowances : list OwnerAllowance.t) (st : state) :
  Forall clean_allowance allowances →
  scan ([] :: total_row "Subtotal" subtotal :: total_row "GrandTotal" grand_total
        :: allowance_rows allowances) 0 st
  = set_allowances
      (set_total (set_total st "subtotal" (float_or_zero (py_str subtotal)))
         "grand_total" (float_or_zero (py_str grand_total)))
      (st_allowances st ++ allowances).
Proof.
  intros Hclean.
  set (st' := set_total (set_total st "subtotal" (float_or_zero (py_str subtotal)))
                "grand_total" (float_or_zero (py_str grand_total))).
  assert (E : scan ([] :: total_row "Subtotal" subtotal :: total_row "GrandTotal" grand_total
                    :: allowance_rows allowances) 0 st
              = scan (allowance_rows allowances) 0 st') by reflexivity.
  rewrite E. destruct allowances as [|a allowances].
  - rewrite app_nil_r. by destruct st.
  - unfold allowance_rows.
    set (block := (allowance_row <$> a :: allowances)
                  ++ [["OwnerAllowancesTotal"; ""; ""; "";
                       py_str (fold_left PrimFloat.add
                                 (OwnerAllowance.total <$> a :: allowances) 0%float)]]).
    assert (E' : scan ([[]; [allowances_marker]; allowance_header] ++ block) 0 st'
                 = scan (allowance_header :: block) (S (S (block_len block)))
                     (set_allowances st' (st_allowances st' ++ block_allowances block)))
      by reflexivity.
    rewrite E'. subst block.
    destruct (block_of_clean_rows (a :: allowances)
                (fold_left PrimFloat.add (OwnerAllowance.total <$> a :: allowances) 0%float)
                Hclean) as [-> Hlen].
    apply scan_past_end. rewrite Hlen.
    simpl. rewrite length_app, length_fmap. simpl. lia.
Qed.

Lemma decoded_clean_document (today : date) (d : Document.t) :
  Document.clean d →
  Forall clean_allowance (Document.allowances d) →
  decoded today
    (document_rows (Document.job_id d) (Document.doc_type d) (Document.project_name d)
       (Document.project_address d) (Document.client_name d) (Document.lines d)
       (Document.receipts_total d) (Document.subtotal d) (Document.grand_total d)
       (Document.allowances d) (format_date (Document.doc_date d)))
  = (Document.meta d, Document.lines d, Document.totals d, Document.allowances d).
Proof.
  intros Hclean Hals.
  pose proof Hclean as (_ & _ & _ & _ & _ & _ & _ & Hlines & Hs & _ & Hg & _).
  unfold decoded, document_rows.
  rewrite scan_header_rows, (after_header_clean today d Hclean).
  cbn [app]. rewrite scan_blank_row, scan_table_header.
  destruct (table_of_line_rows (Document.lines d)
              (total_row "Subtotal" (Document.subtotal d)
               :: total_row "GrandTotal" (Document.grand_total d)
               :: allowance_rows (Document.allowances d))
              Hlines) as [Hl Hn].
  rewrite Hl, Hn, drop_app_length' by (by rewrite length_fmap).
  rewrite (scan_clean_allowances _ _ _ _ Hals). simpl.
  rewrite (float_or_zero_str _ Hs), (float_or_zero_str _ Hg).
  reflexivity.
Qed.

(** X3.  The allowances of a clean document are read back as well: when, in
    addition, every allowance has a description without blanks around it
    that is not [OwnerAllowancesTotal], and a quantity and a unit cost that
    [str] and [float] reproduce, and the text of the document is read back as
    written (no carriage return in a text field, none of more than 131072
    characters), the decoder returns the metadata, the line items, the totals
    and the allowances of the document that the encoder wrote. *)
Theorem clean_document_with_allowances_round_trip (today : date) (fs : filesystem)
    (job_dir : string) (d : Document.t) :
  Document.clean d →
  Forall clean_allowance (Document.allowances d) →
  text_read_as_written d →
  ∃ path rows,
    Document.save fs job_dir d = (<[path := rows]> fs, Ok path)
    ∧ load_quote_from_csv_on_disk today (Utf8 <$> <[path := rows]> fs) path
      = ([], Returned (Document.meta d, Document.lines d, Document.totals d,
                       Document.allowances d)).
Proof.
  intros Hclean Hals Htext. do 2 eexists. split.
  - unfold Document.save.
    by apply (save_document_rows fs job_dir _ _ _ _ _ _ _ _ _
                (Document.subtotal d) (Document.grand_total d)).
  - rewrite (saved_document_is_read fs _ d Htext today).
    by rewrite <- (decoded_clean_document today d Hclean Hals).
Qed.

Lemma demo_document_clean : Document.clean demo_document.
Proof.
  unfold Document.clean.
  split; [vm_compute; reflexivity|].
  split; [vm_compute; reflexivity|].
  split; [vm_compute; reflexivity|].
  split; [vm_compute; reflexivity|].
  split; [vm_compute; reflexivity|].
  split; [vm_compute; reflexivity|].
  split; [simpl; lia|].
  split.
  { unfold demo_document, demo_lines, Document.lines.
    repeat (apply Forall_cons_2; [unfold clean_line; repeat split; vm_compute; reflexivity|]).
    apply Forall_nil_2. }
  split; [vm_compute; reflexivity|].
  split; [vm_compute; reflexivity|].
  split; [vm_compute; reflexivity|].
  unfold demo_document, demo_allowances, Document.allowances.
  repeat (apply Forall_cons_2; [vm_compute; discriminate|]).
  apply Forall_nil_2.
Qed.

Lemma demo_allowances_clean : Forall clean_allowance (Document.allowances demo_document).
Proof.
  unfold demo_document, demo_allowances, Document.allowances.
  apply Forall_cons_2; [|apply Forall_nil_2].
  unfold clean_allowance. simpl.
  split; [vm_compute; reflexivity|].
  split; [discriminate|].
  split; vm_compute; reflexivity.
Qed.

Lemma clean_document_with_allowances_round_trip_witness :
  ∃ path rows,
    Document.save ∅ "jobs" demo_document = (<[path := rows]> ∅, Ok path)
    ∧ load_quote_from_csv_on_disk demo_date (Utf8 <$> <[path := rows]> ∅) path
      = ([], Returned (Document.meta demo_document, Document.lines demo_document,
                       Document.totals demo_document, Document.allowances demo_document)).
Proof.
  exact (clean_document_with_allowances_round_trip demo_date ∅ "jobs" demo_document
           demo_document_clean demo_allowances_clean demo_document_read_as_written).
Defined.

(** ** What the decoder returns for any file *)

(** a state of the decoder that holds a document: the six entries of [meta],
    with a date under [doc_date] and text under the others, and the three
    entries of [totals] *)
Definition holds_document (st : state) : Prop :=
  ∃ d : Document.t,
    st = mkstate (Document.meta d) (Document.lines d) (Document.totals d)
           (Document.allowances d).

Ltac same_map :=
  apply map_eq; intros ?; rewrite !lookup_insert; repeat case_decide; congruence.

Lemma set_meta_text (st : state) (k s : string) :
  k ∈ ["doc_type"; "job_id"; "project_name"; "client_name"; "project_address"] →
  holds_document st → holds_document (set_meta st k (VStr s)).
Proof.
  intros Hk [[t j p c a d ls x y z als] ->].
  unfold set_meta, holds_document. simpl.
  repeat (apply elem_of_cons in Hk as [->|Hk]); [..|by apply elem_of_nil in Hk].
  - exists (Document.mk s j p c a d ls x y z als); f_equal; try same_map.
  - exists (Document.mk t s p c a d ls x y z als); f_equal; try same_map.
  - exists (Document.mk t j s c a d ls x y z als); f_equal; try same_map.
  - exists (Document.mk t j p s a d ls x y z als); f_equal; try same_map.
  - exists (Document.mk t j p c s d ls x y z als); f_equal; try same_map.
Qed.

Lemma set_meta_date (st : state) (d' : date) :
  holds_document st → holds_document (set_meta st "doc_date" (VDate d')).
Proof.
  intros [[t j p c a d ls x y z als] ->].
  exists (Document.mk t j p c a d' ls x y z als).
  unfold set_meta, Document.meta; simpl; f_equal; try same_map.
Qed.

Lemma set_total_number (st : state) (k : string) (v : float) :
  k ∈ ["subtotal"; "receipts_total"; "grand_total"] →
  holds_document st → holds_document (set_total st k v).
Proof.
  intros Hk [[t j p c a d ls x y z als] ->].
  unfold set_total, holds_document. simpl.
  repeat (apply elem_of_cons in Hk as [->|Hk]); [..|by apply elem_of_nil in Hk].
  - exists (Document.mk t j p c a d ls v y z als); f_equal; try same_map.
  - exists (Document.mk t j p c a d ls x v z als); f_equal; try same_map.
  - exists (Document.mk t j p c a d ls x y v als); f_equal; try same_map.
Qed.

Lemma set_lines_document (st : state) (ls' : list EstimateLine.t) :
  holds_document st → holds_document (set_lines st ls').
Proof.
  intros [[t j p c a d ls x y z als] ->].
  by exists (Document.mk t j p c a d ls' x y z als).
Qed.

Lemma set_allowances_document (st : state) (als' : list OwnerAllowance.t) :
  holds_document st → holds_document (set_allowances st als').
Proof.
  intros [[t j p c a d ls x y z als] ->].
  by exists (Document.mk t j p c a d ls x y z als').
Qed.

Lemma initial_state_document (today : date) : holds_document (initial_state today).
Proof. by exists (Document.mk "quote" "" "" "" "" today [] 0 0 0 []). Qed.

Lemma outer_step_document (row : csv_row) (rest : list csv_row) (st : state) :
  holds_document st → holds_document (fst (outer_step row rest st)).
Proof.
  intros H. destruct row as [|c row]; [done|].
  unfold outer_step.
  repeat case_match; simpl;
    try (apply set_meta_text; [set_solver|done]);
    try (apply set_total_number; [set_solver|done]);
    try (by apply set_meta_date);
    try (by apply set_lines_document);
    try (by apply set_allowances_document);
    done.
Qed.

Lemma scan_document (rows : list csv_row) (skip : nat) (st : state) :
  holds_document st → holds_document (scan rows skip st).
Proof.
  revert skip st. induction rows as [|row rest IH]; intros skip st H; [done|].
  destruct skip as [|k]; simpl; [|by apply IH].
  apply IH. by apply outer_step_document.
Qed.

(** X4.  For an existing file the decoder either raises what the read of the
    file raises ([csv.Error] at a cell of more than 131072 characters,
    [UnicodeDecodeError] at bytes that are not UTF-8), or returns a document:
    [meta] has its six entries (a date under [doc_date], text under the
    others) and [totals] its three, so that the callers' [meta["project_name"]]
    and [totals["subtotal"]] find their keys. *)
Theorem load_returns_a_document (today : date) (disk : gmap string file) (path : string)
    (f : file) :
  disk !! path = Some f →
  match read_rows f with
  | Returned _ =>
      ∃ d : Document.t,
        load_quote_from_csv_on_disk today disk path
        = ([], Returned (Document.meta d, Document.lines d, Document.totals d,
                         Document.allowances d))
  | Failed e => load_quote_from_csv_on_disk today disk path = ([], Failed e)
  end.
Proof.
  intros Hf. destruct (read_rows f) as [rows|e] eqn:E.
  - rewrite (load_on_disk_read today disk path f rows Hf E). unfold decoded.
    destruct (scan_document rows 0 (initial_state today) (initial_state_document today))
      as [d ->].
    by exists d.
  - by apply (load_on_disk_failed today disk path f e).
Qed.

Lemma load_returns_a_document_witness :
  (∃ d : Document.t,
     load_quote_from_csv_on_disk demo_date
       {["notes.csv" := Utf8 [["Project"]; ["Date"; "soon"]]]} "notes.csv"
     = ([], Returned (Document.meta d, Document.lines d, Document.totals d,
                      Document.allowances d)))
  ∧ load_quote_from_csv_on_disk demo_date {["old.csv" := NotUtf8]} "old.csv"
    = ([], Failed UnicodeDecodeError).
Proof.
  split.
  - exact (load_returns_a_document demo_date
             {["notes.csv" := Utf8 [["Project"]; ["Date"; "soon"]]]} "notes.csv"
             (Utf8 [["Project"]; ["Date"; "soon"]]) (lookup_singleton_eq _ _)).
  - exact (load_returns_a_document demo_date {["old.csv" := NotUtf8]} "old.csv" NotUtf8
             (lookup_singleton_eq _ _)).
Defined.

(** * Conversations

    The functions below talk to the user.  [input] returns the next line that
    was typed, without its line end, and raises [EOFError] when nothing is
    left.  A conversation is run on the lines still to be typed; it returns a
    value and the lines it left, or it stops with an exception.  What is
    printed is left out, except where building the text can raise. *)

Inductive stop := Error (e : exn) | AttributeError | EOFError.

Inductive answer (A : Type) := Returns (a : A) (rest : list string) | Stops (why : stop).
Arguments Returns {A} a rest.
Arguments Stops {A} why.

Definition console (A : Type) : Type := list string → answer A.

#[global] Instance console_ret : MRet console := λ A a typed, Returns a typed.
#[global] Instance console_bind : MBind console := λ A B k m typed,
  match m typed with
  | Returns a rest => k a rest
  | Stops why => Stops why
  end.

Definition input : console string := λ typed,
  match typed with
  | [] => Stops EOFError
  | line :: rest => Returns line rest
  end.

(** a computation that does not read *)
Definition lift {A} (r : result A) : console A := λ typed,
  match r with
  | Ok a => Returns a typed
  | Raise e => Stops (Error e)
  end.

(** [while True: line = input(...); ...]: a turn either leaves the loop with a
    value or goes around again *)
Fixpoint ask {A} (turn : string → result (option A)) (typed : list string) : answer A :=
  match typed with
  | [] => Stops EOFError
  | line :: rest =>
      match turn line with
      | Ok (Some a) => Returns a rest
      | Ok None => ask turn rest
      | Raise e => Stops (Error e)
      end
  end.

(** ** Text and numbers *)

(** [s.lower()], for the characters up to U+00FF *)
Definition lower_char (c : ascii) : ascii :=
  let n := N_of_ascii c in
  if ((65 <=? n) && (n <=? 90) || (192 <=? n) && (n <=? 222) && negb (n =? 215))%N
  then ascii_of_N (n + 32) else c.

Fixpoint str_lower (s : string) : string :=
  match s with
  | EmptyString => EmptyString
  | String c s' => String (lower_char c) (str_lower s')
  end.

(** [s.split(sep)] for a separator of one character *)
Fixpoint split (sep : ascii) (s : string) : list string :=
  match s with
  | EmptyString => [""]
  | String c s' =>
      if Ascii.eqb c sep then "" :: split sep s'
      else match split sep s' with
           | p :: ps => String c p :: ps
           | [] => [String c ""]
           end
  end.

(** [int(s)]: blanks around the number are ignored as they are by [float]; a
    sign, then digits, with single underscores between digits; at most 4300
    digits. *)
Definition py_int (s : string) : result Z :=
  match drop_underscores "000" (strip_number s) with
  | None => Raise ValueError
  | Some t =>
      let '(neg, t1) := read_sign t in
      let '(v, n, t2) := read_digits t1 0 0 in
      if (0 <? n) && (n <=? 4300) && (t2 =? "")%string
      then Ok (if neg then - v else v)
      else Raise ValueError
  end.

(** ** Input helpers (source lines 416-440) *)

(** [try: return float(raw)] [except ValueError: print(...)] *)
Definition float_or_again (raw : string) : result (option float) :=
  try_except (x ← py_float raw; Ok (Some x)) [ValueError] (Ok None).

Definition prompt_float (default : option float) : console float :=
  ask (λ line,
         let raw := strip line in
         match default with
         | Some d => if (raw =? "")%string then Ok (Some d) else float_or_again raw
         | None => float_or_again raw
         end).

Definition prompt_yes_no (default : bool) : console bool :=
  ask (λ line,
         let raw := str_lower (strip line) in
         if (raw =? "")%string then Ok (Some default)
         else if bool_decide (raw ∈ ["y"; "yes"]) then Ok (Some true)
         else if bool_decide (raw ∈ ["n"; "no"]) then Ok (Some false)
         else Ok None).

(** [input(...).strip()] *)
Definition input_stripped : console string := line ← input; mret (strip line).

(** ** Editing the header of a quote (source lines 519-594)

    The dictionaries are changed in place and returned; here the changed
    dictionaries are returned.  A missing key raises [KeyError] where the
    entry is read, and a [doc_date] that is no date has no [strftime]. *)
Definition edit_quote_headers_interactive (meta : gmap string value)
    (totals : gmap string float) : console (gmap string value * gmap string float) :=
  (* project name *)
  _ ← lift (dict_getitem meta "project_name");
  new_val ← input_stripped;
  let meta := if (new_val =? "")%string then meta else <["project_name" := VStr new_val]> meta in
  (* client name *)
  _ ← lift (dict_getitem meta "client_name");
  new_val ← input_stripped;
  let meta := if (new_val =? "")%string then meta else <["client_name" := VStr new_val]> meta in
  (* project address *)
  _ ← lift (dict_getitem meta "project_address");
  new_val ← input_stripped;
  let meta :=
    if (new_val =? "")%string then meta else <["project_address" := VStr new_val]> meta in
  (* date *)
  current ← lift (dict_getitem meta "doc_date");
  _ ← (match current with
       | VDate d => mret (format_date d)
       | VStr _ => λ _, Stops AttributeError
       end);
  new_date ← ask (λ line,
                    let new_val := strip line in
                    if (new_val =? "")%string then Ok (Some None)
                    else try_except (d ← parse_mmddyyyy new_val; Ok (Some (Some d)))
                           [ValueError] (Ok None));
  let meta :=
    match new_date with
    | Some d => <["doc_date" := VDate d]> meta
    | None => meta
    end in
  (* receipts total *)
  raw ← input_stripped;
  totals ← lift (if (raw =? "")%string then Ok totals
                 else try_except (x ← py_float raw; Ok (<["receipts_total" := x]> totals))
                        [ValueError] (Ok totals));
  (* subtotal *)
  raw ← input_stripped;
  totals ← lift (if (raw =? "")%string then Ok totals
                 else try_except (x ← py_float raw; Ok (<["subtotal" := x]> totals))
                        [ValueError] (Ok totals));
  (* grand total *)
  raw ← input_stripped;
  let recalculated :=
    subtotal ← dict_getitem totals "subtotal";
    receipts_total ← dict_getitem totals "receipts_total";
    Ok (<["grand_total" := (subtotal + receipts_total)%float]> totals) in
  totals ← lift (if (raw =? "")%string then recalculated
                 else try_except (x ← py_float raw; Ok (<["grand_total" := x]> totals))
                        [ValueError] recalculated);
  mret (meta, totals).

(** ** Reordering the sections (source lines 1563-1630) *)

(** lines 1571-1575: the sections in the order of their first line item
    ([l.section or ""] is [l.section], a text) *)
Definition section_order_of (lines : list EstimateLine.t) : list string :=
  fold_left
    (λ section_order l,
       let key := EstimateLine.section l in
       if bool_decide (key ∈ section_order) then section_order else section_order ++ [key])
    lines [].

(** lines 1596-1614, one turn of the loop: the order typed, if it is one *)
Definition read_order (n : nat) (line : string) : result (option (list Z)) :=
  let raw := strip line in
  let parts := strip <$> filter (λ p, strip p ≠ "") (split "," raw) in
  parsed ← try_except (indices ← mapM py_int parts; Ok (Some indices)) [ValueError] (Ok None);
  match parsed with
  | None => Ok None
  | Some indices =>
      if negb (length indices =? n)%nat then Ok None
      else if negb (forallb (λ i, (1 <=? i) && (i <=? Z.of_nat n)) indices) then Ok None
      else if negb (size (list_to_set indices : gset Z) =? length indices)%nat then Ok None
      else Ok (Some indices)
  end.

(** lines 1619-1621: [by_section[key].append(l)] for each line item *)
Fixpoint group_lines (lines : list EstimateLine.t)
    (by_section : gmap string (list EstimateLine.t))
  : result (gmap string (list EstimateLine.t)) :=
  match lines with
  | [] => Ok by_section
  | l :: lines' =>
      let key := EstimateLine.section l in
      group ← dict_getitem by_section key;
      group_lines lines' (<[key := group ++ [l]]> by_section)
  end.

Definition reorder_sections_interactive (lines : list EstimateLine.t)
  : console (list EstimateLine.t) :=
  match lines with
  | [] => mret lines
  | _ :: _ =>
      let section_order := section_order_of lines in
      if (length section_order <=? 1)%nat then mret lines
      else
        reorder ← prompt_yes_no false;
        if negb reorder then mret lines
        else
          indices ← ask (read_order (length section_order));
          new_section_order ← lift (mapM (λ i, getitem section_order (i - 1)) indices);
          by_section ← lift (group_lines lines
                               (list_to_map ((λ sec, (sec, [])) <$> section_order)));
          mret (fold_left (λ new_lines sec, new_lines ++ dict_get by_section sec [])
                  new_section_order [])
  end.

(** ** The loops that ask again *)

Lemma ask_skips {A} (turn : string → result (option A)) (again : list string)
    (line : string) (rest : list string) (a : A) :
  Forall (λ l, turn l = Ok None) again →
  turn line = Ok (Some a) →
  ask turn (again ++ line :: rest) = Returns a rest.
Proof.
  intros Hagain Hline. induction Hagain as [|l again Hl _ IH]; simpl.
  - by rewrite Hline.
  - by rewrite Hl.
Qed.

Lemma ask_returns {A} (turn : string → result (option A)) (typed rest : list string) (a : A) :
  ask turn typed = Returns a rest →
  ∃ again line,
    typed = again ++ line :: rest ∧ Forall (λ l, turn l = Ok None) again
    ∧ turn line = Ok (Some a).
Proof.
  induction typed as [|l typed IH]; simpl; [done|].
  destruct (turn l) as [[a'|]|e] eqn:E; [| |done].
  - intros [= -> ->]. by exists [], l.
  - intros H. destruct (IH H) as (again & line & -> & Hagain & Hline).
    exists (l :: again), line. split; [done|]. split; [|done]. by apply Forall_cons_2.
Qed.

(** A conversation ends well when it returns a value with the property [P],
    or stops because nothing more was typed. *)
Definition ends_well {A} (m : console A) (P : A → Prop) : Prop :=
  ∀ typed,
    match m typed with
    | Returns a _ => P a
    | Stops why => why = EOFError
    end.

Lemma ends_well_ret {A} (a : A) (P : A → Prop) : P a → ends_well (mret a) P.
Proof. by intros H typed. Qed.

Lemma ends_well_bind {A B} (m : console A) (k : A → console B) (P : A → Prop)
    (Q : B → Prop) :
  ends_well m P → (∀ a, P a → ends_well (k a) Q) → ends_well (m ≫= k) Q.
Proof.
  intros Hm Hk typed. specialize (Hm typed).
  unfold mbind, console_bind. destruct (m typed) as [a rest|why]; [|done].
  apply (Hk a Hm rest).
Qed.

Lemma ends_well_lift {A} (r : result A) (a : A) (P : A → Prop) :
  r = Ok a → P a → ends_well (lift r) P.
Proof. by intros -> H typed. Qed.

Lemma ends_well_input_stripped : ends_well input_stripped (λ _, True).
Proof. intros [|line rest]; done. Qed.

Lemma ends_well_ask {A} (turn : string → result (option A)) (P : A → Prop) :
  (∀ line, match turn line with
           | Ok (Some a) => P a
           | Ok None => True
           | Raise _ => False
           end) →
  ends_well (ask turn) P.
Proof.
  intros H typed. induction typed as [|l typed IH]; simpl; [done|].
  specialize (H l). by destruct (turn l) as [[a|]|e].
Qed.

Lemma py_float_empty : py_float "" = Raise ValueError.
Proof. vm_compute. reflexivity. Qed.

Lemma float_or_again_cases (raw : string) :
  match py_float raw with
  | Ok x => float_or_again raw = Ok (Some x)
  | Raise _ => float_or_again raw = Ok None
  end.
Proof.
  unfold float_or_again. destruct (py_float raw) as [x|e] eqn:E; simpl; [done|].
  by rewrite (py_float_raises _ _ E).
Qed.

(** X5.  [prompt_float] asks until it has an answer.  The lines that [float]
    rejects are asked again (with a default these are not blank).  After
    them, a line that [float] accepts gives the value returned, whatever the
    number is; and, with a default, a blank line returns the default. *)
Theorem prompt_float_returns_first_number (default : option float) (again : list string) :
  Forall (λ l, py_float (strip l) = Raise ValueError ∧ (default = None ∨ strip l ≠ "")) again →
  (∀ (line : string) (rest : list string) (x : float),
     py_float (strip line) = Ok x →
     prompt_float default (again ++ line :: rest) = Returns x rest)
  ∧ (∀ (line : string) (rest : list string) (d : float),
       default = Some d → strip line = "" →
       prompt_float default (again ++ line :: rest) = Returns d rest).
Proof.
  intros Hagain.
  assert (Hskip : Forall (λ l, match default with
                               | Some d =>
                                   if (strip l =? "")%string then Ok (Some d)
                                   else float_or_again (strip l)
                               | None => float_or_again (strip l)
                               end = Ok None) again).
  { eapply Forall_impl; [exact Hagain|]. intros l [Hl Hblank].
    pose proof (float_or_again_cases (strip l)) as H. rewrite Hl in H.
    destruct default as [d|]; [|done].
    destruct Hblank as [|Hblank]; [done|].
    apply String.eqb_neq in Hblank. by rewrite Hblank. }
  split.
  - intros line rest x Hline. apply ask_skips; [exact Hskip|]. cbv beta zeta.
    pose proof (float_or_again_cases (strip line)) as H. rewrite Hline in H.
    destruct default as [d|]; [|done].
    destruct (String.eqb_spec (strip line) "") as [E|_]; [|done].
    rewrite E, py_float_empty in Hline. done.
  - intros line rest d -> Hline. apply ask_skips; [exact Hskip|]. cbv beta zeta.
    by rewrite Hline.
Qed.

Lemma prompt_float_returns_first_number_witness :
  prompt_float (Some 80%float) ["eighty"; "$75"; " -75.5 "; "next"] = Returns (-75.5)%float ["next"]
  ∧ prompt_float (Some 80%float) ["eighty"; "$75"; "  "; "next"] = Returns 80%float ["next"].
Proof.
  assert (H : Forall (λ l, py_float (strip l) = Raise ValueError
                           ∧ (Some 80%float = None ∨ strip l ≠ "")) ["eighty"; "$75"]).
  { repeat (apply Forall_cons_2;
            [split; [vm_compute; reflexivity|right; vm_compute; discriminate]|]).
    apply Forall_nil_2. }
  destruct (prompt_float_returns_first_number (Some 80%float) ["eighty"; "$75"] H)
    as [Hnumber Hblank].
  split.
  - apply (Hnumber " -75.5 " ["next"]). vm_compute. reflexivity.
  - apply (Hblank "  " ["next"] 80%float); [reflexivity|vm_compute; reflexivity].
Defined.

Lemma dict_getitem_Some {V} (d : gmap string V) (k : string) (v : V) :
  d !! k = Some v → dict_getitem d k = Ok v.
Proof. unfold dict_getitem. by intros ->. Qed.

(** ** Editing the header *)

(** dictionaries with the entries of a document *)
Definition document_meta (meta : gmap string value) : Prop :=
  ∃ d : Document.t, meta = Document.meta d.

Definition document_totals (totals : gmap string float) : Prop :=
  ∃ d : Document.t, totals = Document.totals d.

Lemma holds_document_parts (meta : gmap string value) (lines : list EstimateLine.t)
    (totals : gmap string float) (allowances : list OwnerAllowance.t) :
  holds_document (mkstate meta lines totals allowances)
  ↔ document_meta meta ∧ document_totals totals.
Proof.
  split.
  - intros [d [= -> _ -> _]]. split; by exists d.
  - intros [[[t j p c a dt ? ? ? ? ?] ->] [[? ? ? ? ? ? ? x y z ?] ->]].
    by exists (Document.mk t j p c a dt lines x y z allowances).
Qed.

Lemma document_meta_text (meta : gmap string value) (k s : string) :
  k ∈ ["doc_type"; "job_id"; "project_name"; "client_name"; "project_address"] →
  document_meta meta → document_meta (<[k := VStr s]> meta).
Proof.
  intros Hk Hm.
  assert (H : holds_document (mkstate meta [] (Document.totals demo_document) [])).
  { apply holds_document_parts. split; [done|by eexists]. }
  apply (set_meta_text _ k s Hk) in H. by apply holds_document_parts in H as [H _].
Qed.

Lemma document_meta_date (meta : gmap string value) (d : date) :
  document_meta meta → document_meta (<["doc_date" := VDate d]> meta).
Proof.
  intros Hm.
  assert (H : holds_document (mkstate meta [] (Document.totals demo_document) [])).
  { apply holds_document_parts. split; [done|by eexists]. }
  apply (set_meta_date _ d) in H. by apply holds_document_parts in H as [H _].
Qed.

Lemma document_totals_number (totals : gmap string float) (k : string) (x : float) :
  k ∈ ["subtotal"; "receipts_total"; "grand_total"] →
  document_totals totals → document_totals (<[k := x]> totals).
Proof.
  intros Hk Ht.
  assert (H : holds_document (mkstate (Document.meta demo_document) [] totals [])).
  { apply holds_document_parts. split; [by eexists|done]. }
  apply (set_total_number _ k x Hk) in H. by apply holds_document_parts in H as [_ H].
Qed.

Lemma document_meta_lookup (meta : gmap string value) :
  document_meta meta →
  (∃ s, meta !! "project_name" = Some (VStr s))
  ∧ (∃ s, meta !! "client_name" = Some (VStr s))
  ∧ (∃ s, meta !! "project_address" = Some (VStr s))
  ∧ (∃ d, meta !! "doc_date" = Some (VDate d)).
Proof. intros [d ->]. repeat split; by eexists. Qed.

Lemma document_totals_lookup (totals : gmap string float) :
  document_totals totals →
  (∃ x, totals !! "subtotal" = Some x) ∧ (∃ x, totals !! "receipts_total" = Some x).
Proof. intros [d ->]. split; by eexists. Qed.

Lemma edited_total (totals : gmap string float) (k raw : string) :
  k ∈ ["subtotal"; "receipts_total"; "grand_total"] →
  document_totals totals →
  ∃ totals',
    (if (raw =? "")%string then Ok totals
     else try_except (x ← py_float raw; Ok (<[k := x]> totals)) [ValueError] (Ok totals))
    = Ok totals'
    ∧ document_totals totals'.
Proof.
  intros Hk Ht. destruct (raw =? "")%string; [by exists totals|].
  destruct (py_float raw) as [x|e] eqn:E; simpl.
  - exists (<[k := x]> totals). split; [done|]. by apply document_totals_number.
  - rewrite (py_float_raises _ _ E). by exists totals.
Qed.

Lemma edit_headers_ends_well (meta : gmap string value) (totals : gmap string float) :
  document_meta meta → document_totals totals →
  ends_well (edit_quote_headers_interactive meta totals)
    (λ '(meta', totals'), document_meta meta' ∧ document_totals totals').
Proof.
  intros Hm Ht. unfold edit_quote_headers_interactive.
  (* project name *)
  destruct (document_meta_lookup meta Hm) as ([s Hs] & _).
  eapply ends_well_bind;
    [apply (ends_well_lift _ (VStr s) (λ _, True)); [by apply dict_getitem_Some|done]|].
  intros _ _.
  eapply ends_well_bind; [apply ends_well_input_stripped|]. intros new_val _. cbv zeta.
  assert (Hm1 : document_meta (if (new_val =? "")%string then meta
                               else <["project_name" := VStr new_val]> meta)).
  { destruct (new_val =? "")%string; [done|]. apply document_meta_text; [set_solver|done]. }
  clear s Hs. revert Hm1.
  generalize (if (new_val =? "")%string then meta else <["project_name" := VStr new_val]> meta).
  clear meta Hm new_val. intros meta Hm.
  (* client name *)
  destruct (document_meta_lookup meta Hm) as (_ & [s Hs] & _).
  eapply ends_well_bind;
    [apply (ends_well_lift _ (VStr s) (λ _, True)); [by apply dict_getitem_Some|done]|].
  intros _ _.
  eapply ends_well_bind; [apply ends_well_input_stripped|]. intros new_val _. cbv zeta.
  assert (Hm1 : document_meta (if (new_val =? "")%string then meta
                               else <["client_name" := VStr new_val]> meta)).
  { destruct (new_val =? "")%string; [done|]. apply document_meta_text; [set_solver|done]. }
  clear s Hs. revert Hm1.
  generalize (if (new_val =? "")%string then meta else <["client_name" := VStr new_val]> meta).
  clear meta Hm new_val. intros meta Hm.
  (* project address *)
  destruct (document_meta_lookup meta Hm) as (_ & _ & [s Hs] & _).
  eapply ends_well_bind;
    [apply (ends_well_lift _ (VStr s) (λ _, True)); [by apply dict_getitem_Some|done]|].
  intros _ _.
  eapply ends_well_bind; [apply ends_well_input_stripped|]. intros new_val _. cbv zeta.
  assert (Hm1 : document_meta (if (new_val =? "")%string then meta
                               else <["project_address" := VStr new_val]> meta)).
  { destruct (new_val =? "")%string; [done|]. apply document_meta_text; [set_solver|done]. }
  clear s Hs. revert Hm1.
  generalize (if (new_val =? "")%string then meta else <["project_address" := VStr new_val]> meta).
  clear meta Hm new_val. intros meta Hm.
  (* date *)
  destruct (document_meta_lookup meta Hm) as (_ & _ & _ & [d Hd]).
  eapply ends_well_bind;
    [apply (ends_well_lift _ (VDate d) (λ v, v = VDate d)); [by apply dict_getitem_Some|done]|].
  intros _ ->.
  eapply ends_well_bind; [by apply (ends_well_ret _ (λ _, True))|]. intros _ _.
  eapply ends_well_bind.
  { apply (ends_well_ask _ (λ _, True)). intros line. cbv zeta.
    destruct (strip line =? "")%string; [done|].
    destruct (parse_mmddyyyy (strip line)) as [d'|e] eqn:E; simpl; [done|].
    by rewrite (parse_mmddyyyy_raises _ _ E). }
  intros new_date _. cbv zeta.
  assert (Hm1 : document_meta (match new_date with
                               | Some d => <["doc_date" := VDate d]> meta
                               | None => meta
                               end)).
  { destruct new_date; [|done]. by apply document_meta_date. }
  clear d Hd. revert Hm1.
  generalize (match new_date with
              | Some d => <["doc_date" := VDate d]> meta
              | None => meta
              end).
  clear meta Hm new_date. intros meta Hm.
  (* receipts total *)
  eapply ends_well_bind; [apply ends_well_input_stripped|]. intros raw _.
  destruct (edited_total totals "receipts_total" raw ltac:(set_solver) Ht) as (totals1 & E1 & Ht1).
  eapply ends_well_bind; [by apply (ends_well_lift _ totals1 (λ t, t = totals1))|].
  intros _ ->. clear totals Ht raw E1.
  (* subtotal *)
  eapply ends_well_bind; [apply ends_well_input_stripped|]. intros raw _.
  destruct (edited_total totals1 "subtotal" raw ltac:(set_solver) Ht1) as (totals2 & E2 & Ht2).
  eapply ends_well_bind; [by apply (ends_well_lift _ totals2 (λ t, t = totals2))|].
  intros _ ->. clear totals1 Ht1 raw E2.
  (* grand total *)
  eapply ends_well_bind; [apply ends_well_input_stripped|]. intros raw _. cbv zeta.
  destruct (document_totals_lookup totals2 Ht2) as ([s Hs] & [r Hr]).
  assert (Hauto : (subtotal ← dict_getitem totals2 "subtotal";
                   receipts_total ← dict_getitem totals2 "receipts_total";
                   Ok (<["grand_total" := (subtotal + receipts_total)%float]> totals2))
                  = Ok (<["grand_total" := (s + r)%float]> totals2)).
  { unfold dict_getitem. by rewrite Hs, Hr. }
  rewrite Hauto.
  assert (Ht3 : ∃ totals3,
            (if (raw =? "")%string then Ok (<["grand_total" := (s + r)%float]> totals2)
             else try_except (x ← py_float raw; Ok (<["grand_total" := x]> totals2))
                    [ValueError] (Ok (<["grand_total" := (s + r)%float]> totals2)))
            = Ok totals3 ∧ document_totals totals3).
  { destruct (raw =? "")%string.
    - eexists. split; [done|]. apply document_totals_number; [set_solver|done].
    - destruct (py_float raw) as [x|e] eqn:E; simpl.
      + eexists. split; [done|]. apply document_totals_number; [set_solver|done].
      + rewrite (py_float_raises _ _ E). simpl.
        eexists. split; [done|]. apply document_totals_number; [set_solver|done]. }
  destruct Ht3 as (totals3 & E3 & Ht3).
  eapply ends_well_bind; [by apply (ends_well_lift _ totals3 (λ t, t = totals3))|].
  intros _ ->. by apply ends_well_ret.
Qed.

(** X6.  Editing the header of a quote that was loaded cannot fail: run on
    the [meta] and [totals] of a document, as [load_quote_from_csv] returns
    them for an existing file that it can read,
    [edit_quote_headers_interactive] raises neither [KeyError] nor any other
    exception of its own, whatever is typed, and what it returns are again
    the [meta] and [totals] of a document.  It stops only when the typed
    lines run out. *)
Theorem edit_headers_of_a_document (d : Document.t) (typed : list string) :
  match edit_quote_headers_interactive (Document.meta d) (Document.totals d) typed with
  | Returns (meta', totals') _ =>
      ∃ d' : Document.t, meta' = Document.meta d' ∧ totals' = Document.totals d'
  | Stops why => why = EOFError
  end.
Proof.
  pose proof (edit_headers_ends_well (Document.meta d) (Document.totals d)
                ltac:(by exists d) ltac:(by exists d) typed) as H.
  destruct (edit_quote_headers_interactive _ _ typed) as [[meta' totals'] rest|why]; [|done].
  destruct H as [Hm Ht].
  destruct (proj2 (holds_document_parts meta' [] totals' []) (conj Hm Ht)) as [d' [= -> _ -> _]].
  by exists d'.
Qed.

Lemma document_entries (d : Document.t) :
  dict_getitem (Document.meta d) "project_name" = Ok (VStr (Document.project_name d))
  ∧ dict_getitem (Document.meta d) "client_name" = Ok (VStr (Document.client_name d))
  ∧ dict_getitem (Document.meta d) "project_address" = Ok (VStr (Document.project_address d))
  ∧ dict_getitem (Document.meta d) "doc_date" = Ok (VDate (Document.doc_date d))
  ∧ dict_getitem (Document.totals d) "subtotal" = Ok (Document.subtotal d)
  ∧ dict_getitem (Document.totals d) "receipts_total" = Ok (Document.receipts_total d).
Proof. by destruct d. Qed.

(** X7.  Seven blank answers keep every header field and the subtotal and
    the receipts total, and replace the grand total by the sum of the
    subtotal and the receipts total. *)
Theorem edit_headers_all_blank (d : Document.t) (l1 l2 l3 l4 l5 l6 l7 : string)
    (rest : list string) :
  Forall (λ l, strip l = "") [l1; l2; l3; l4; l5; l6; l7] →
  edit_quote_headers_interactive (Document.meta d) (Document.totals d)
    (l1 :: l2 :: l3 :: l4 :: l5 :: l6 :: l7 :: rest)
  = Returns
      (Document.meta d,
       <["grand_total" := (Document.subtotal d + Document.receipts_total d)%float]>
         (Document.totals d))
      rest.
Proof.
  intros H.
  apply Forall_cons in H as [H1 H]. apply Forall_cons in H as [H2 H].
  apply Forall_cons in H as [H3 H]. apply Forall_cons in H as [H4 H].
  apply Forall_cons in H as [H5 H]. apply Forall_cons in H as [H6 H].
  apply Forall_cons in H as [H7 _].
  destruct (document_entries d) as (E1 & E2 & E3 & E4 & E5 & E6).
  unfold edit_quote_headers_interactive, input_stripped.
  unfold mbind, console_bind, input, lift, mret, console_ret.
  rewrite E1. cbn -[strip Document.meta Document.totals dict_getitem]. rewrite H1.
  cbn -[strip Document.meta Document.totals dict_getitem]. rewrite E2.
  cbn -[strip Document.meta Document.totals dict_getitem]. rewrite H2.
  cbn -[strip Document.meta Document.totals dict_getitem]. rewrite E3.
  cbn -[strip Document.meta Document.totals dict_getitem]. rewrite H3.
  cbn -[strip Document.meta Document.totals dict_getitem]. rewrite E4.
  cbn -[strip Document.meta Document.totals dict_getitem]. rewrite H4.
  cbn -[strip Document.meta Document.totals dict_getitem]. rewrite H5.
  cbn -[strip Document.meta Document.totals dict_getitem]. rewrite H6.
  cbn -[strip Document.meta Document.totals dict_getitem]. rewrite H7.
  cbn -[strip Document.meta Document.totals dict_getitem]. rewrite E5.
  cbn -[strip Document.meta Document.totals dict_getitem]. rewrite E6.
  reflexivity.
Qed.

Lemma edit_headers_all_blank_witness :
  edit_quote_headers_interactive (Document.meta demo_document) (Document.totals demo_document)
    [""; " "; ""; ""; ""; ""; ""; "1"]
  = Returns
      (Document.meta demo_document,
       <["grand_total" := (625 + 0)%float]> (Document.totals demo_document))
      ["1"].
Proof.
  apply (edit_headers_all_blank demo_document "" " " "" "" "" "" "" ["1"]).
  repeat (apply Forall_cons_2; [vm_compute; reflexivity|]). apply Forall_nil_2.
Defined.

(** ** Reordering the sections *)

(** the line items grouped by section, the sections in the given order *)
Definition regroup (order : list string) (lines : list EstimateLine.t)
  : list EstimateLine.t :=
  order ≫= λ sec, filter (λ l, EstimateLine.section l = sec) lines.

Lemma regroup_cons (s : string) (order : list string) (lines : list EstimateLine.t) :
  regroup (s :: order) lines
  = filter (λ l, EstimateLine.section l = s) lines ++ regroup order lines.
Proof. done. Qed.

Lemma section_order_from (lines : list EstimateLine.t) (acc : list string) :
  NoDup acc →
  let order :=
    fold_left
      (λ section_order l,
         let key := EstimateLine.section l in
         if bool_decide (key ∈ section_order) then section_order else section_order ++ [key])
      lines acc in
  NoDup order ∧ (∀ s, s ∈ acc → s ∈ order)
  ∧ (∀ l, l ∈ lines → EstimateLine.section l ∈ order).
Proof.
  revert acc. induction lines as [|l lines IH]; intros acc Hacc; simpl.
  - split; [done|]. split; [done|]. intros l Hl. by apply elem_of_nil in Hl.
  - set (acc' := if bool_decide (EstimateLine.section l ∈ acc) then acc
                 else acc ++ [EstimateLine.section l]).
    assert (Hacc' : NoDup acc').
    { subst acc'. case_bool_decide; [done|]. apply NoDup_app. split; [done|].
      split; [|apply NoDup_singleton]. intros x Hx Hx'. apply list_elem_of_singleton in Hx'.
      by subst x. }
    assert (Hsub : ∀ s, s ∈ acc → s ∈ acc').
    { subst acc'. intros s Hs. case_bool_decide; [done|]. apply elem_of_app. by left. }
    assert (Hl : EstimateLine.section l ∈ acc').
    { subst acc'. case_bool_decide; [done|]. apply elem_of_app. right.
      by apply list_elem_of_singleton. }
    destruct (IH acc' Hacc') as (H1 & H2 & H3).
    split; [done|]. split; [by intros s Hs; apply H2, Hsub|].
    intros l' [->|Hl']%elem_of_cons; [by apply H2|by apply H3].
Qed.

Lemma group_lines_spec (lines : list EstimateLine.t)
    (by_section : gmap string (list EstimateLine.t)) :
  (∀ l, l ∈ lines → is_Some (by_section !! EstimateLine.section l)) →
  ∃ by_section',
    group_lines lines by_section = Ok by_section'
    ∧ ∀ sec,
        by_section' !! sec
        = (λ group, group ++ filter (λ l, EstimateLine.section l = sec) lines)
            <$> by_section !! sec.
Proof.
  revert by_section. induction lines as [|l lines IH]; intros by_section Hkeys.
  - exists by_section. split; [done|]. intros sec.
    destruct (by_section !! sec); simpl; [|done]. by rewrite app_nil_r.
  - destruct (Hkeys l ltac:(by left)) as [group Hgroup]. simpl.
    rewrite (dict_getitem_Some _ _ _ Hgroup). simpl.
    destruct (IH (<[EstimateLine.section l := group ++ [l]]> by_section)) as (m' & Hm' & Hsec).
    { intros l' Hl'. apply lookup_insert_is_Some'. right. apply Hkeys. by right. }
    exists m'. split; [done|]. intros sec. rewrite Hsec.
    destruct (decide (EstimateLine.section l = sec)) as [E|E].
    + rewrite E, lookup_insert_eq. rewrite E in Hgroup. rewrite Hgroup. simpl.
      rewrite filter_cons_True by done. by rewrite <- app_assoc.
    + rewrite lookup_insert_ne by done. by rewrite filter_cons_False.
Qed.

Lemma empty_groups (order : list string) (sec : string) :
  (list_to_map ((λ sec, (sec, [])) <$> order) : gmap string (list EstimateLine.t)) !! sec
  = if bool_decide (sec ∈ order) then Some [] else None.
Proof.
  induction order as [|s order IH]; [done|].
  rewrite fmap_cons, list_to_map_cons. simpl.
  destruct (decide (s = sec)) as [->|E].
  - rewrite lookup_insert_eq. by rewrite bool_decide_eq_true_2 by (by left).
  - rewrite lookup_insert_ne, IH by done.
    destruct (decide (sec ∈ order)) as [Hin|Hin].
    + rewrite (bool_decide_eq_true_2 (sec ∈ order)) by done.
      by rewrite (bool_decide_eq_true_2 (sec ∈ s :: order)) by (by right).
    + rewrite (bool_decide_eq_false_2 (sec ∈ order)) by done.
      rewrite (bool_decide_eq_false_2 (sec ∈ s :: order)); [done|].
      by intros [->|?]%elem_of_cons.
Qed.

Lemma extend_lines (by_section : gmap string (list EstimateLine.t)) (order : list string)
    (acc : list EstimateLine.t) :
  fold_left (λ new_lines sec, new_lines ++ dict_get by_section sec []) order acc
  = acc ++ (order ≫= λ sec, dict_get by_section sec []).
Proof.
  revert acc. induction order as [|s order IH]; intros acc; simpl.
  - by rewrite app_nil_r.
  - by rewrite IH, <- app_assoc.
Qed.

Lemma size_list_to_set_le (l : list Z) : (size (list_to_set l : gset Z) ≤ length l)%nat.
Proof.
  induction l as [|x l IH]; [done|]. simpl.
  rewrite size_union_alt, size_singleton.
  assert (H : (list_to_set l ∖ {[x]} : gset Z) ⊆ list_to_set l).
  { intros y Hy. by apply elem_of_difference in Hy as [Hy _]. }
  apply subseteq_size in H. lia.
Qed.

Lemma size_list_to_set_NoDup (l : list Z) :
  size (list_to_set l : gset Z) = length l → NoDup l.
Proof.
  induction l as [|x l IH]; [intros _; apply NoDup_nil_2|]. simpl. intros H.
  destruct (decide (x ∈ l)) as [Hx|Hx].
  - exfalso.
    assert (E : ({[x]} ∪ list_to_set l : gset Z) = list_to_set l).
    { apply subseteq_union_1_L, singleton_subseteq_l. by apply elem_of_list_to_set. }
    rewrite E in H. pose proof (size_list_to_set_le l). lia.
  - apply NoDup_cons. split; [done|]. apply IH.
    rewrite size_union, size_singleton in H; [lia|].
    apply disjoint_singleton_l. by rewrite elem_of_list_to_set.
Qed.

Lemma read_order_spec (n : nat) (line : string) (indices : list Z) :
  read_order n line = Ok (Some indices) →
  length indices = n ∧ Forall (λ i, 1 ≤ i ≤ Z.of_nat n) indices ∧ NoDup indices.
Proof.
  unfold read_order. cbv zeta.
  destruct (try_except _ _ _) as [[ind|]|e]; simpl; [|done..].
  destruct (Nat.eqb_spec (length ind) n) as [Hlen|_]; simpl; [|done].
  destruct (forallb _ ind) eqn:Hrange; simpl; [|done].
  destruct (Nat.eqb_spec (size (list_to_set ind : gset Z)) (length ind)) as [Hsize|_];
    simpl; [|done].
  intros [= <-]. split; [done|]. split; [|by apply size_list_to_set_NoDup].
  apply Forall_forall. intros i Hi.
  rewrite forallb_forall in Hrange. apply list_elem_of_In in Hi.
  specialize (Hrange i Hi). apply andb_true_iff in Hrange as [H1 H2]. lia.
Qed.

Lemma new_order_spec (order : list string) (indices : list Z) :
  Forall (λ i, 1 ≤ i ≤ Z.of_nat (length order)) indices →
  ∃ new_order,
    mapM (λ i, getitem order (i - 1)) indices = Ok new_order
    ∧ Forall2 (λ i s, order !! Z.to_nat (i - 1) = Some s) indices new_order.
Proof.
  intros H. induction H as [|i indices Hi _ (new_order & Hnew & Hall)].
  - by exists [].
  - destruct (lookup_lt_is_Some_2 order (Z.to_nat (i - 1)) ltac:(lia)) as [s Hs].
    exists (s :: new_order). split; [|by apply Forall2_cons].
    simpl. replace (i - 1) with (Z.of_nat (Z.to_nat (i - 1))) by lia.
    rewrite (getitem_lookup _ _ _ Hs). simpl.
    replace (Z.of_nat (Z.to_nat (i - 1)) + 1 - 1) with (i - 1) by lia.
    by rewrite Hnew.
Qed.

Lemma new_order_permutation (order new_order : list string) (indices : list Z) :
  NoDup order → NoDup indices →
  length indices = length order →
  Forall (λ i, 1 ≤ i ≤ Z.of_nat (length order)) indices →
  Forall2 (λ i s, order !! Z.to_nat (i - 1) = Some s) indices new_order →
  new_order ≡ₚ order.
Proof.
  intros Horder Hindices Hlen Hrange Hall.
  assert (Hin : ∀ s, s ∈ new_order → s ∈ order).
  { intros s Hs. apply list_elem_of_lookup in Hs as [j Hj].
    destruct (Forall2_lookup_r _ _ _ _ _ Hall Hj) as (i & _ & Hi).
    by apply list_elem_of_lookup_2 in Hi. }
  assert (Hnodup : NoDup new_order).
  { clear Hlen Hin. induction Hall as [|i s indices new_order His Hall IH]; [apply NoDup_nil_2|].
    apply NoDup_cons in Hindices as [Hi Hindices].
    apply Forall_cons in Hrange as [Hi1 Hrange].
    apply NoDup_cons. split; [|by apply IH].
    intros Hs. apply list_elem_of_lookup in Hs as [j Hj].
    destruct (Forall2_lookup_r _ _ _ _ _ Hall Hj) as (i' & Hi' & His').
    pose proof (NoDup_lookup order _ _ s Horder His His') as E.
    assert (Hi'1 : 1 ≤ i').
    { apply list_elem_of_lookup_2 in Hi'. rewrite Forall_forall in Hrange.
      by destruct (Hrange i' Hi'). }
    assert (i = i') by lia. subst i'. apply Hi. by apply list_elem_of_lookup_2 in Hi'. }
  apply submseteq_length_Permutation.
  - by apply NoDup_submseteq.
  - rewrite <- (Forall2_length _ _ _ Hall). lia.
Qed.

Lemma filter_no_section (lines : list EstimateLine.t) :
  filter (λ l, EstimateLine.section l ∈ ([] : list string)) lines = [].
Proof.
  induction lines as [|l lines IH]; [done|].
  rewrite filter_cons_False; [done|]. intros H. by apply elem_of_nil in H.
Qed.

Lemma filter_first_section (s : string) (order : list string) (lines : list EstimateLine.t) :
  s ∉ order →
  filter (λ l, EstimateLine.section l ∈ s :: order) lines
  ≡ₚ filter (λ l, EstimateLine.section l = s) lines
     ++ filter (λ l, EstimateLine.section l ∈ order) lines.
Proof.
  intros Hs. induction lines as [|l lines IH]; [done|].
  destruct (decide (EstimateLine.section l = s)) as [E|E].
  - rewrite (filter_cons_True (λ l, EstimateLine.section l ∈ s :: order)) by (rewrite E; by left).
    rewrite (filter_cons_True (λ l, EstimateLine.section l = s)) by done.
    rewrite (filter_cons_False (λ l, EstimateLine.section l ∈ order)) by (by rewrite E).
    simpl. by rewrite IH.
  - rewrite (filter_cons_False (λ l, EstimateLine.section l = s)) by done.
    destruct (decide (EstimateLine.section l ∈ order)) as [Hin|Hin].
    + rewrite (filter_cons_True (λ l, EstimateLine.section l ∈ s :: order)) by (by right).
      rewrite (filter_cons_True (λ l, EstimateLine.section l ∈ order)) by done.
      rewrite IH. apply Permutation_middle.
    + rewrite (filter_cons_False (λ l, EstimateLine.section l ∈ s :: order)).
      * by rewrite (filter_cons_False (λ l, EstimateLine.section l ∈ order)).
      * intros [?|?]%elem_of_cons; done.
Qed.

Lemma regroup_permutation (order : list string) (lines : list EstimateLine.t) :
  NoDup order →
  regroup order lines ≡ₚ filter (λ l, EstimateLine.section l ∈ order) lines.
Proof.
  intros H. induction H as [|s order Hs _ IH].
  - by rewrite filter_no_section.
  - by rewrite (filter_first_section s order lines Hs), regroup_cons, IH.
Qed.

Lemma filter_all (order : list string) (lines : list EstimateLine.t) :
  (∀ l, l ∈ lines → EstimateLine.section l ∈ order) →
  filter (λ l, EstimateLine.section l ∈ order) lines = lines.
Proof.
  intros H. induction lines as [|l lines IH]; [done|].
  rewrite filter_cons_True by (apply H; by left).
  rewrite IH; [done|]. intros l' Hl'. apply H. by right.
Qed.

Lemma filter_section_twice (s sec : string) (lines : list EstimateLine.t) :
  filter (λ l, EstimateLine.section l = sec) (filter (λ l, EstimateLine.section l = s) lines)
  = if bool_decide (s = sec) then filter (λ l, EstimateLine.section l = sec) lines else [].
Proof.
  destruct (decide (s = sec)) as [->|Hne].
  - rewrite bool_decide_eq_true_2 by done.
    induction lines as [|l lines IH]; [done|].
    destruct (decide (EstimateLine.section l = sec)) as [E|E].
    + rewrite !filter_cons_True by done. by rewrite IH.
    + by rewrite !filter_cons_False by done.
  - rewrite bool_decide_eq_false_2 by done.
    induction lines as [|l lines IH]; [done|].
    destruct (decide (EstimateLine.section l = s)) as [E|E].
    + rewrite (filter_cons_True (λ l, EstimateLine.section l = s)) by done.
      rewrite filter_cons_False by congruence. exact IH.
    + by rewrite (filter_cons_False (λ l, EstimateLine.section l = s)) by done.
Qed.

Lemma regroup_section (sec : string) (order : list string) (lines : list EstimateLine.t) :
  NoDup order → sec ∈ order →
  filter (λ l, EstimateLine.section l = sec) (regroup order lines)
  = filter (λ l, EstimateLine.section l = sec) lines.
Proof.
  intros H Hsec.
  assert (Hout : ∀ order', sec ∉ order' →
            filter (λ l, EstimateLine.section l = sec) (regroup order' lines) = []).
  { intros order' Hnot. induction order' as [|s order' IH]; [done|].
    rewrite regroup_cons, filter_app, filter_section_twice.
    rewrite bool_decide_eq_false_2 by (intros ->; apply Hnot; by left).
    rewrite IH; [done|]. intros Hin. apply Hnot. by right. }
  induction H as [|s order Hs Hnodup IH]; [by apply elem_of_nil in Hsec|].
  rewrite regroup_cons, filter_app, filter_section_twice.
  destruct (decide (s = sec)) as [->|E].
  - rewrite bool_decide_eq_true_2 by done.
    rewrite (Hout order Hs). by rewrite app_nil_r.
  - rewrite bool_decide_eq_false_2 by done. simpl. apply IH.
    by apply elem_of_cons in Hsec as [->|Hsec].
Qed.

Lemma bind_ext_in {A B} (f g : A → list B) (l : list A) :
  (∀ x, x ∈ l → f x = g x) → l ≫= f = l ≫= g.
Proof.
  intros H. induction l as [|x l IH]; [done|].
  rewrite !bind_cons, (H x) by (by left). rewrite IH; [done|].
  intros y Hy. apply H. by right.
Qed.

Lemma reorder_result (lines : list EstimateLine.t) (typed rest : list string)
    (lines' : list EstimateLine.t) :
  reorder_sections_interactive lines typed = Returns lines' rest →
  lines' = lines
  ∨ ∃ new_order, new_order ≡ₚ section_order_of lines ∧ lines' = regroup new_order lines.
Proof.
  unfold reorder_sections_interactive.
  destruct lines as [|l0 ls] eqn:E; [intros [= <- _]; by left|].
  cbv beta iota zeta. rewrite <- E. clear l0 ls E.
  set (order := section_order_of lines).
  destruct (length order <=? 1)%nat; [intros [= <- _]; by left|].
  unfold mbind at 1, console_bind at 1.
  destruct (prompt_yes_no false typed) as [[] r1|]; cbv beta iota;
    [|intros [= <- _]; by left|done].
  change (negb true) with false. cbv iota.
  unfold mbind at 1, console_bind at 1.
  destruct (ask (read_order (length order)) r1) as [indices r2|] eqn:Eask; [|done].
  apply ask_returns in Eask as (again & line & _ & _ & Hline).
  apply read_order_spec in Hline as (Hlen & Hrange & Hnodup).
  destruct (section_order_from lines [] (NoDup_nil_2)) as (Horder & _ & Hcover).
  fold (section_order_of lines) in Horder, Hcover. fold order in Horder, Hcover.
  destruct (new_order_spec order indices Hrange) as (new_order & Hnew & Hall).
  unfold mbind at 1, console_bind at 1. rewrite Hnew.
  change (lift (Ok new_order) r2) with (Returns new_order r2). cbv beta iota.
  destruct (group_lines_spec lines (list_to_map ((λ sec, (sec, [])) <$> order)))
    as (by_section & Hgroup & Hsec).
  { intros l Hl. rewrite empty_groups, bool_decide_eq_true_2 by (by apply Hcover). by eexists. }
  unfold mbind at 1, console_bind at 1. rewrite Hgroup.
  change (lift (Ok by_section) r2) with (Returns by_section r2). cbv beta iota.
  unfold mret, console_ret.
  intros [= <- _]. right. exists new_order.
  assert (Hperm : new_order ≡ₚ order) by (by apply (new_order_permutation _ _ indices)).
  split; [done|].
  rewrite extend_lines. simpl. apply bind_ext_in. intros sec Hin.
  assert (Hsec' : sec ∈ order) by (by rewrite <- Hperm).
  unfold dict_get. rewrite Hsec, empty_groups, bool_decide_eq_true_2 by done. done.
Qed.

(** X8.  Reordering the sections loses nothing: whatever is typed, the line
    items that [reorder_sections_interactive] returns are the line items it
    was given, in another order at most, and the line items of each section
    keep the order they had among themselves. *)
Theorem reorder_keeps_every_line (lines : list EstimateLine.t) (typed rest : list string)
    (lines' : list EstimateLine.t) :
  reorder_sections_interactive lines typed = Returns lines' rest →
  lines' ≡ₚ lines
  ∧ ∀ sec, filter (λ l, EstimateLine.section l = sec) lines'
           = filter (λ l, EstimateLine.section l = sec) lines.
Proof.
  intros H. apply reorder_result in H as [->|(new_order & Hperm & ->)]; [done|].
  destruct (section_order_from lines [] (NoDup_nil_2)) as (Horder & _ & Hcover).
  fold (section_order_of lines) in Horder, Hcover.
  assert (Hnodup : NoDup new_order) by (by rewrite Hperm).
  split.
  - rewrite (regroup_permutation new_order lines Hnodup).
    rewrite filter_all; [done|]. intros l Hl. rewrite Hperm. by apply Hcover.
  - intros sec. destruct (decide (sec ∈ new_order)) as [Hin|Hout].
    + by apply regroup_section.
    + assert (E : ∀ ls : list EstimateLine.t,
                (∀ l, l ∈ ls → EstimateLine.section l ∈ new_order) →
                filter (λ l, EstimateLine.section l = sec) ls = []).
      { intros ls Hls. induction ls as [|l ls IH]; [done|].
        rewrite filter_cons_False.
        - apply IH. intros l' Hl'. apply Hls. by right.
        - intros E. apply Hout. rewrite <- E. apply Hls. by left. }
      rewrite (E lines) by (intros l Hl; rewrite Hperm; by apply Hcover).
      apply E. intros l Hl. unfold regroup in Hl.
      apply list_elem_of_bind in Hl as (s & Hl & Hs).
      apply list_elem_of_filter in Hl as [<- _]. done.
Qed.

(** line items in three sections, one of them without a name *)
Definition three_sections : list EstimateLine.t :=
  [EstimateLine.mk "Interior" "Paint" "Labor" 1 500 "";
   EstimateLine.mk "Exterior" "Siding" "Labor" 1 900 "";
   EstimateLine.mk "Interior" "Trim" "Material" 4 25 "";
   EstimateLine.mk "" "Permit" "Material" 1 80 ""].

Lemma reorder_keeps_every_line_witness :
  [EstimateLine.mk "" "Permit" "Material" 1 80 "";
   EstimateLine.mk "Interior" "Paint" "Labor" 1 500 "";
   EstimateLine.mk "Interior" "Trim" "Material" 4 25 "";
   EstimateLine.mk "Exterior" "Siding" "Labor" 1 900 ""]
  ≡ₚ three_sections
  ∧ ∀ sec,
      filter (λ l, EstimateLine.section l = sec)
        [EstimateLine.mk "" "Permit" "Material" 1 80 "";
         EstimateLine.mk "Interior" "Paint" "Labor" 1 500 "";
         EstimateLine.mk "Interior" "Trim" "Material" 4 25 "";
         EstimateLine.mk "Exterior" "Siding" "Labor" 1 900 ""]
      = filter (λ l, EstimateLine.section l = sec) three_sections.
Proof.
  apply (reorder_keeps_every_line three_sections ["yes"; "1,2"; "3, 1, 2"; "next"] ["next"]).
  vm_compute. reflexivity.
Defined.
